(** * GroupByResult (tcms/core/db.py): a shallow embedding and its properties

    The development follows the Python source of [GroupByResult]:

    - Python values are a small tagged union ([value]); integers ([int] and
      [long], which Python 2 promotes into each other silently) are [Z],
      floats are IEEE binary64 ([PrimFloat.float]);
    - a raised exception is an explicit [Raise] in the [result] monad;
    - the [_data] dictionary is an association list kept in the
      dictionary's iteration order, because [leaf_values_count] depends on
      that order;
    - a nested [GroupByResult] is a subtree of its parent: object graphs
      are finite trees (no cycles).  A method that mutates the object
      ([__setitem__], [__delitem__], [leaf_values_count]) returns the new
      state of the object. *)

From Stdlib Require Import ZArith List String Ascii Bool Lia.
From Stdlib Require Import PrimFloat SpecFloat FloatOps.
Import ListNotations.

Local Open Scope string_scope.
Local Open Scope list_scope.
Local Open Scope Z_scope.

(** ** Exceptions and the result monad *)

Inductive exn : Type :=
| KeyError (key : string)
| ValueError
| TypeError
| OverflowError
| ZeroDivisionError.

Inductive result (A : Type) : Type :=
| Ok (a : A)
| Raise (e : exn).

Arguments Ok {A} a.
Arguments Raise {A} e.

Definition bind {A B : Type} (m : result A) (k : A -> result B) : result B :=
  match m with
  | Ok a => k a
  | Raise e => Raise e
  end.

Notation "x <- m ;; k" := (bind m (fun x => k))
  (at level 61, m at next level, right associativity).

Definition raises {A : Type} (m : result A) : bool :=
  match m with
  | Ok _ => false
  | Raise _ => true
  end.

(** ** Strings: [str.endswith] and [str.split] with a one-character separator *)

Module PyStr.

(** [s.endswith(suffix)] *)
Fixpoint endswith (s suffix : string) : bool :=
  if String.eqb s suffix then true
  else match s with
       | EmptyString => false
       | String _ s' => endswith s' suffix
       end.

(** [s.split(sep)] for a separator of one character: one more piece than
    there are separators, empty pieces included. *)
Fixpoint split (sep : ascii) (s : string) : list string :=
  match s with
  | EmptyString => [EmptyString]
  | String c s' =>
      if Ascii.eqb c sep then EmptyString :: split sep s'
      else match split sep s' with
           | [] => [String c EmptyString]
           | piece :: pieces => String c piece :: pieces
           end
  end.

(** [c in s] for a character. *)
Fixpoint has_char (c : ascii) (s : string) : bool :=
  match s with
  | EmptyString => false
  | String c' s' => Ascii.eqb c' c || has_char c s'
  end.

End PyStr.

(** ** Numbers *)

Module PyNum.

(** Conversion of a Python integer to a float, as done when an [int] or
    a [long] meets a float in arithmetic: rounded to the nearest
    binary64, [OverflowError] when the integer is too large. *)
Definition float_of_int (z : Z) : result float :=
  match binary_normalize prec emax z 0 false with
  | S754_infinity _ => Raise OverflowError
  | sf => Ok (SF2Prim sf)
  end.

Definition float_is_zero (f : float) : bool := PrimFloat.eqb f 0%float.

End PyNum.

(** ** Dictionaries with string keys, in iteration order *)

Module Dict.
Section Dict.

Variable V : Type.

Definition t : Type := list (string * V).

Fixpoint lookup (key : string) (d : t) : option V :=
  match d with
  | [] => None
  | (k, v) :: d' => if String.eqb k key then Some v else lookup key d'
  end.

(** [key in d] *)
Definition contains (key : string) (d : t) : bool :=
  match lookup key d with
  | Some _ => true
  | None => false
  end.

(** [d[key]] *)
Definition getitem (key : string) (d : t) : result V :=
  match lookup key d with
  | Some v => Ok v
  | None => Raise (KeyError key)
  end.

(** [d.get(key, default)] *)
Definition get (key : string) (default : V) (d : t) : V :=
  match lookup key d with
  | Some v => v
  | None => default
  end.

(** [d[key] = v]: an existing key keeps its place.  Python leaves the
    place of a new key to the hash table; here it is entered after the
    others. *)
Fixpoint setitem (key : string) (v : V) (d : t) : t :=
  match d with
  | [] => [(key, v)]
  | (k, w) :: d' =>
      if String.eqb k key then (k, v) :: d' else (k, w) :: setitem key v d'
  end.

Fixpoint remove (key : string) (d : t) : t :=
  match d with
  | [] => []
  | (k, w) :: d' =>
      if String.eqb k key then d' else (k, w) :: remove key d'
  end.

(** [del d[key]] *)
Definition delitem (key : string) (d : t) : result t :=
  match lookup key d with
  | Some _ => Ok (remove key d)
  | None => Raise (KeyError key)
  end.

(** [len(d)] *)
Definition len (d : t) : Z := Z.of_nat (List.length d).

(** [dict(items)]: the items are entered one after the other, a later
    item replaces an earlier one with the same key.  The order of the
    result is the order of entry here; Python iterates in the order of
    its hash table. *)
Definition of_items (items : list (string * V)) : t :=
  fold_left (fun d kv => setitem (fst kv) (snd kv) d) items [].

Definition keys (d : t) : list string := map fst d.

End Dict.

Arguments lookup {V} key d.
Arguments contains {V} key d.
Arguments getitem {V} key d.
Arguments get {V} key default d.
Arguments setitem {V} key v d.
Arguments remove {V} key d.
Arguments delitem {V} key d.
Arguments len {V} d.
Arguments of_items {V} items.
Arguments keys {V} d.

End Dict.

(** ** Python values and the state of a [GroupByResult] object *)

(** A value stored under a key, or returned by a method.  [VInt] is an
    [int] or a [long] (a [bool] too, which is an [int] in Python);
    [VGroup] is a nested [GroupByResult]; [VFloat], [VStr] and [VNone] are
    values that are neither integers nor nested results.

    The fields of [mkGroupByResult] are the instance attributes
    [_total_name], [_data], [_total_result] and the ['value_leaf_count']
    slot of [_meta] ([None] while the slot is absent; the only code that
    writes [_meta] stores an integer there). *)
Inductive value : Type :=
| VInt (z : Z)
| VFloat (f : float)
| VStr (s : string)
| VNone
| VGroup (g : GroupByResult)
with GroupByResult : Type :=
| mkGroupByResult (total_name : option string) (data : Dict.t value)
                  (total_result : value) (meta : option Z).

Definition _total_name (g : GroupByResult) : option string :=
  let 'mkGroupByResult total_name _ _ _ := g in total_name.
Definition _data (g : GroupByResult) : Dict.t value :=
  let 'mkGroupByResult _ data _ _ := g in data.
Definition _total_result (g : GroupByResult) : value :=
  let 'mkGroupByResult _ _ total_result _ := g in total_result.
Definition _meta (g : GroupByResult) : option Z :=
  let 'mkGroupByResult _ _ _ meta := g in meta.

Definition items : Type := list (string * value).

(** *** Arithmetic on values *)

(** [a + b] *)
Definition py_add (a b : value) : result value :=
  match a, b with
  | VInt x, VInt y => Ok (VInt (x + y))
  | VInt x, VFloat f => fx <- PyNum.float_of_int x ;; Ok (VFloat (fx + f)%float)
  | VFloat f, VInt y => fy <- PyNum.float_of_int y ;; Ok (VFloat (f + fy)%float)
  | VFloat f, VFloat f' => Ok (VFloat (f + f')%float)
  | VStr s, VStr s' => Ok (VStr (s ++ s')%string)
  | _, _ => Raise TypeError
  end.

(** [v == 0] *)
Definition py_eq_zero (v : value) : bool :=
  match v with
  | VInt z => z =? 0
  | VFloat f => PyNum.float_is_zero f
  | _ => false
  end.

(** [v * f] for a float [f] *)
Definition py_mul_float (v : value) (f : float) : result float :=
  match v with
  | VInt z => fz <- PyNum.float_of_int z ;; Ok (fz * f)%float
  | VFloat f' => Ok (f' * f)%float
  | _ => Raise TypeError
  end.

(** [f / v] for a float [f] *)
Definition py_float_div (f : float) (v : value) : result float :=
  match v with
  | VInt z =>
      if z =? 0 then Raise ZeroDivisionError
      else fz <- PyNum.float_of_int z ;; Ok (f / fz)%float
  | VFloat f' =>
      if PyNum.float_is_zero f' then Raise ZeroDivisionError
      else Ok (f / f')%float
  | _ => Raise TypeError
  end.

(** ** The methods of [GroupByResult] *)

(** *** Proxy methods *)

Definition __contains__ (self : GroupByResult) (item : string) : bool :=
  Dict.contains item (_data self).

Definition __getitem__ (self : GroupByResult) (key : string) : result value :=
  Dict.getitem key (_data self).

Definition __setitem__ (self : GroupByResult) (key : string) (v : value)
  : GroupByResult :=
  let 'mkGroupByResult total_name data total_result meta := self in
  mkGroupByResult total_name (Dict.setitem key v data) total_result meta.

Definition __delitem__ (self : GroupByResult) (key : string)
  : result GroupByResult :=
  let 'mkGroupByResult total_name data total_result meta := self in
  data' <- Dict.delitem key data ;;
  Ok (mkGroupByResult total_name data' total_result meta).

Definition __len__ (self : GroupByResult) : Z := Dict.len (_data self).

Definition get (self : GroupByResult) (key : string) (default : value) : value :=
  Dict.get key default (_data self).

Definition iteritems (self : GroupByResult) : items := _data self.

Definition keys (self : GroupByResult) : list string := Dict.keys (_data self).

Definition setdefault (self : GroupByResult) (key : string) (default : value)
  : value * GroupByResult :=
  match Dict.lookup key (_data self) with
  | Some v => (v, self)
  | None => (default, __setitem__ self key default)
  end.

Definition empty (self : GroupByResult) : bool := __len__ self =? 0.

(** *** [_get_total] *)

Section TotalLoop.

(** [subtotal.total] of a nested result *)
Variable total_of : GroupByResult -> result value.

(** The [for name, subtotal in self._data.iteritems()] loop of
    [_get_total], started with the running [total]. *)
Fixpoint sum_subtotals (entries : items) (total : value) : result value :=
  match entries with
  | [] => Ok total
  | (name, subtotal) :: rest =>
      match subtotal with
      | VInt _ =>
          total' <- py_add total subtotal ;;
          sum_subtotals rest total'
      | VGroup sub =>
          sub_total <- total_of sub ;;
          total' <- py_add total sub_total ;;
          sum_subtotals rest total'
      | _ => sum_subtotals rest total
      end
  end.

End TotalLoop.

(** [self.empty] is tested on the entries ([_data] is [[]], see
    [empty] below the proxies). *)
Fixpoint _get_total (self : GroupByResult) : result value :=
  let 'mkGroupByResult total_name data _ _ := self in
  match data with
  | [] => Ok (VInt 0)
  | _ :: _ =>
      match total_name with
      | Some name => Dict.getitem name data
      | None => sum_subtotals _get_total data (VInt 0)
      end
  end.

(** [total = property(_get_total)] *)
Definition total (self : GroupByResult) : result value := _get_total self.

(** *** [__init__] *)

(** [GroupByResult(data, total_name)]; [data=None] is the empty list.
    [_get_total] runs before [_meta] is set and does not read
    [_total_result]. *)
Definition __init__ (data : items) (total_name : option string)
  : result GroupByResult :=
  let _data := Dict.of_items data in
  total_result <- _get_total (mkGroupByResult total_name _data VNone None) ;;
  Ok (mkGroupByResult total_name _data total_result None).

(** *** [_get_percent] and [__getattr__] *)

Definition _get_percent (self : GroupByResult) (key : string) : result value :=
  let total := _total_result self in
  subtotal <- __getitem__ self key ;;
  if py_eq_zero total then Ok (VFloat 0%float)
  else
    scaled <- py_mul_float subtotal 100%float ;;
    percent <- py_float_div scaled total ;;
    Ok (VFloat percent).

(** The hook Python calls when the regular attribute lookup finds
    nothing (the methods, properties and instance attributes above are
    found by the regular lookup and never reach it).
    [key, identifier = name.split('_')] raises [ValueError] unless the
    split gives exactly two pieces. *)
Definition __getattr__ (self : GroupByResult) (name : string) : result value :=
  if PyStr.endswith name "_percent" then
    match PyStr.split "_" name with
    | [key; identifier] =>
        if __contains__ self key then _get_percent self key
        else Ok (VInt 0)
    | _ => Raise ValueError
    end
  else Ok (VInt 0).

(** *** Attribute access: [self.name] *)

(** The names the regular lookup finds, so that [__getattr__] is not
    called for them: what the class body binds, what a new-style class
    and [object] bring along, and the attributes [__init__] sets on the
    instance. *)
Definition class_attributes : list string :=
  ["__module__"; "__doc__"; "__dict__"; "__weakref__";
   "__init__"; "__contains__"; "__getitem__"; "__setitem__"; "__delitem__";
   "__len__"; "__str__"; "__repr__"; "get"; "iteritems"; "setdefault"; "keys";
   "empty"; "_get_total"; "total"; "_get_percent"; "__getattr__";
   "leaf_values_count"].

Definition object_attributes : list string :=
  ["__class__"; "__delattr__"; "__format__"; "__getattribute__"; "__hash__";
   "__new__"; "__reduce__"; "__reduce_ex__"; "__setattr__"; "__sizeof__";
   "__subclasshook__"].

Definition instance_attributes : list string :=
  ["_total_name"; "_data"; "_total_result"; "_meta"].

Definition is_regular_attribute (name : string) : bool :=
  existsb (String.eqb name)
    (class_attributes ++ object_attributes ++ instance_attributes).

(** What [self.name] gives: the value of one of the two properties, some
    other regular attribute (a bound method, an instance attribute), or
    the answer of the [__getattr__] hook. *)
Inductive attribute : Type :=
| TotalProperty (r : result value)
| EmptyProperty (b : bool)
| RegularAttribute (name : string)
| Hooked (r : result value).

Definition getattr (self : GroupByResult) (name : string) : attribute :=
  if is_regular_attribute name then
    if String.eqb name "total" then TotalProperty (total self)
    else if String.eqb name "empty" then EmptyProperty (empty self)
    else RegularAttribute name
  else Hooked (__getattr__ self name).

(** *** [leaf_values_count] *)

Section CountLoop.

(** [value.leaf_values_count(value_in_row)] of a nested result: the count
    and the nested object afterwards (its cache may have been filled). *)
Variable count_of : GroupByResult -> Z * GroupByResult.
Variable value_in_row : bool.

(** The [for key, value in self.iteritems()] loop of
    [leaf_values_count], started with the running [count]; it returns the
    final count and the entries with the nested objects as the calls left
    them. *)
Fixpoint count_leaves (entries : items) (count : Z) : Z * items :=
  match entries with
  | [] => (count, [])
  | (key, v) :: rest =>
      match v with
      | VGroup sub =>
          let '(c, sub') := count_of sub in
          let '(count', rest') := count_leaves rest (count + c) in
          (count', (key, VGroup sub') :: rest')
      | _ =>
          let '(count', rest') :=
            count_leaves rest (if value_in_row then 1 else count + 1) in
          (count', (key, v) :: rest')
      end
  end.

End CountLoop.

(** The nested call passes [value_in_row] and leaves [refresh] at its
    default. *)
Fixpoint leaf_values_count (value_in_row refresh : bool) (self : GroupByResult)
  : Z * GroupByResult :=
  let 'mkGroupByResult total_name data total_result meta := self in
  let necessary_to_count :=
    if refresh then true
    else match meta with Some _ => false | None => true end in
  match necessary_to_count, meta with
  | false, Some cached => (cached, self)
  | _, _ =>
      let '(count, data') :=
        count_leaves (leaf_values_count value_in_row false) value_in_row data 0 in
      (count, mkGroupByResult total_name data' total_result (Some count))
  end.

(** *** Mutation after construction *)

(** What a caller can do to the entries of an object once it is built:
    [self[key] = v] and [del self[key]]. *)
Inductive mutation : Type :=
| SetItem (key : string) (v : value)
| DelItem (key : string).

Definition mutate (self : GroupByResult) (m : mutation) : result GroupByResult :=
  match m with
  | SetItem key v => Ok (__setitem__ self key v)
  | DelItem key => __delitem__ self key
  end.

Fixpoint mutate_all (self : GroupByResult) (ms : list mutation)
  : result GroupByResult :=
  match ms with
  | [] => Ok self
  | m :: ms' => self' <- mutate self m ;; mutate_all self' ms'
  end.

(** ** Reference notions used to state the properties *)

(** [isinstance(v, GroupByResult)] *)
Definition is_group (v : value) : bool :=
  match v with
  | VGroup _ => true
  | _ => false
  end.

(** [isinstance(v, int) or isinstance(v, long)] *)
Definition is_int (v : value) : bool :=
  match v with
  | VInt _ => true
  | _ => false
  end.

(** A value the summation of [_get_total] looks at. *)
Definition is_summed (v : value) : bool := is_int v || is_group v.

(** The entries of a tree are integers and nested results only, and no
    level has a [_total_name]. *)
Fixpoint int_tree (g : GroupByResult) : bool :=
  let 'mkGroupByResult total_name data _ _ := g in
  match total_name with
  | Some _ => false
  | None =>
      forallb (fun kv : string * value =>
                 let '(_, v) := kv in
                 match v with
                 | VInt _ => true
                 | VGroup sub => int_tree sub
                 | _ => false
                 end) data
  end.

(** The integer leaves of a tree, depth first, in iteration order. *)
Fixpoint leaf_values (g : GroupByResult) : list Z :=
  let 'mkGroupByResult _ data _ _ := g in
  flat_map (fun kv : string * value =>
              let '(_, v) := kv in
              match v with
              | VInt z => [z]
              | VGroup sub => leaf_values sub
              | _ => []
              end) data.

Definition sum (l : list Z) : Z := fold_right Z.add 0 l.

Definition all_groups (entries : items) : bool :=
  forallb (fun kv : string * value => is_group (snd kv)) entries.

Definition all_leaves (entries : items) : bool :=
  forallb (fun kv : string * value => negb (is_group (snd kv))) entries.

(** The entries the summation of [_get_total] looks at. *)
Definition summed_entries (entries : items) : items :=
  filter (fun kv : string * value => is_summed (snd kv)) entries.

Section CountLoopNotions.

Variable count_of : GroupByResult -> Z * GroupByResult.
Variable value_in_row : bool.

(** The sum of the counts of the nested results among [entries]. *)
Definition counts_of_nested (entries : items) : Z :=
  sum (map (fun kv : string * value =>
              match snd kv with
              | VGroup sub => fst (count_of sub)
              | _ => 0
              end) entries).

(** The count after one entry. *)
Definition next_count (count : Z) (v : value) : Z :=
  match v with
  | VGroup sub => count + fst (count_of sub)
  | _ => if value_in_row then 1 else count + 1
  end.

End CountLoopNotions.

(** The sum of what [leaf_values_count] returns on the nested results
    among [entries], called as the loop calls it. *)
Definition nested_counts (value_in_row : bool) (entries : items) : Z :=
  counts_of_nested (leaf_values_count value_in_row false) entries.

(** ** Induction on nested results *)

Section GroupByResult_nested_ind.

Variable P : GroupByResult -> Prop.

Definition on_nested (kv : string * value) : Prop :=
  match snd kv with
  | VGroup sub => P sub
  | _ => True
  end.

Hypothesis step :
  forall tn data tr meta,
    Forall on_nested data -> P (mkGroupByResult tn data tr meta).

Fixpoint GroupByResult_nested_ind (g : GroupByResult) : P g :=
  match g with
  | mkGroupByResult tn data tr meta =>
      step tn data tr meta
        ((fix on_entries (l : items) : Forall on_nested l :=
            match l with
            | [] => Forall_nil _
            | kv :: rest =>
                Forall_cons kv
                  (match kv as kv0 return on_nested kv0 with
                   | (k, v) =>
                       match v as v0 return on_nested (k, v0) with
                       | VGroup sub => GroupByResult_nested_ind sub
                       | _ => I
                       end
                   end)
                  (on_entries rest)
            end) data)
  end.

End GroupByResult_nested_ind.

(** ** Objects used in the examples *)

Module Examples.

(** [GroupByResult({'A': 5})] *)
Definition one_entry : GroupByResult :=
  mkGroupByResult None [("A", VInt 5)] (VInt 5) None.

(** [one_entry] after [one_entry['B'] = 5] *)
Definition one_entry_then_set : GroupByResult :=
  mkGroupByResult None [("A", VInt 5); ("B", VInt 5)] (VInt 5) None.

(** [GroupByResult({'x': 1, 'x_percent': 7})] *)
Definition percent_named_key : GroupByResult :=
  mkGroupByResult None [("x", VInt 1); ("x_percent", VInt 7)] (VInt 8) None.

(** [GroupByResult({'A': 'abc'})] *)
Definition text_entry : GroupByResult :=
  mkGroupByResult None [("A", VStr "abc")] (VInt 0) None.

(** [GroupByResult({'A': 1, 'B': 2})] *)
Definition two_leaves : GroupByResult :=
  mkGroupByResult None [("A", VInt 1); ("B", VInt 2)] (VInt 3) None.

(** [GroupByResult({'X': GroupByResult({'A': 1, 'B': 2}), 'Y': 5})] *)
Definition nested : GroupByResult :=
  mkGroupByResult None [("X", VGroup two_leaves); ("Y", VInt 5)] (VInt 8) None.

End Examples.

(** ** Further reference notions *)

(** No level of the tree has a [_total_name]; the values are whatever
    they are. *)
Fixpoint no_total_name (g : GroupByResult) : bool :=
  let 'mkGroupByResult total_name data _ _ := g in
  match total_name with
  | Some _ => false
  | None =>
      forallb (fun kv : string * value =>
                 let '(_, v) := kv in
                 match v with
                 | VGroup sub => no_total_name sub
                 | _ => true
                 end) data
  end.

(** What an entry adds to the sum of the integer leaves. *)
Definition entry_sum (v : value) : Z :=
  match v with
  | VInt z => z
  | VGroup sub => sum (leaf_values sub)
  | _ => 0
  end.

(** A value that can be stored in a tree without [_total_name]. *)
Definition no_total_name_value (v : value) : bool :=
  match v with
  | VGroup sub => no_total_name sub
  | _ => true
  end.

(** What the entries add to the sum of the integer leaves. *)
Definition entries_sum (entries : items) : Z :=
  sum (map (fun kv : string * value => entry_sum (snd kv)) entries).

(** No level of the tree has a cached leaf count. *)
Fixpoint fresh (g : GroupByResult) : bool :=
  let 'mkGroupByResult _ data _ meta := g in
  match meta with
  | Some _ => false
  | None =>
      forallb (fun kv : string * value =>
                 let '(_, v) := kv in
                 match v with
                 | VGroup sub => fresh sub
                 | _ => true
                 end) data
  end.

(** The values of a tree that are not nested results, depth first. *)
Fixpoint plain_values (g : GroupByResult) : list value :=
  let 'mkGroupByResult _ data _ _ := g in
  flat_map (fun kv : string * value =>
              let '(_, v) := kv in
              match v with
              | VGroup sub => plain_values sub
              | _ => [v]
              end) data.

(** The tree with the cached leaf counts of all its levels dropped. *)
Fixpoint forget_counts (g : GroupByResult) : GroupByResult :=
  let 'mkGroupByResult total_name data total_result _ := g in
  mkGroupByResult total_name
    (map (fun kv : string * value =>
            let '(k, v) := kv in
            match v with
            | VGroup sub => (k, VGroup (forget_counts sub))
            | _ => (k, v)
            end) data)
    total_result None.

(** The entry as the loop of [leaf_values_count] leaves it. *)
Definition entry_after (count_of : GroupByResult -> Z * GroupByResult)
           (kv : string * value) : string * value :=
  match snd kv with
  | VGroup sub => (fst kv, VGroup (snd (count_of sub)))
  | _ => kv
  end.

(** The cached counts of the entries, when every entry is a nested
    result with a cached count. *)
Fixpoint cached_counts (entries : items) : option (list Z) :=
  match entries with
  | [] => Some []
  | (_, VGroup sub) :: rest =>
      match _meta sub, cached_counts rest with
      | Some c, Some cs => Some (c :: cs)
      | _, _ => None
      end
  | _ :: _ => None
  end.

(** ** [SQLExecution] *)

Module SQL.

(** The exceptions of this class: the end of the [rows] generator, the
    call of [iteritems] on a tuple, the iteration over a [description]
    that is [None]. *)
Inductive exc : Type :=
| StopIteration
| AttributeError
| TypeError.

Inductive outcome (A : Type) : Type :=
| Returned (a : A)
| Raised (e : exc).

Arguments Returned {A} a.
Arguments Raised {A} e.

(** A database cursor of PEP 249, as far as the class uses it:
    [description] ([None] when the statement returns no rows, else one
    sequence per column whose first item is the column name), the rows
    [fetchone] has not returned yet, and [rowcount]. *)
Record Cursor : Type := mkCursor {
  description : option (list (string * list value));
  pending : list (list value);
  cursor_rowcount : Z
}.

(** [cursor.fetchone()]: the next row, or [None] when there is none. *)
Definition fetchone (c : Cursor) : option (list value) * Cursor :=
  match pending c with
  | [] => (None, c)
  | row :: rest => (Some row, mkCursor (description c) rest (cursor_rowcount c))
  end.

(** What the [rows] generator yields: a dictionary of field names to
    columns, or the row as the cursor gave it. *)
Inductive row : Type :=
| DictRow (d : Dict.t value)
| TupleRow (t : list value).

(** The state of an object: [cursor], [field_names], and the generator
    held in [rows]: which of the two generator functions made it, and
    whether it has finished. *)
Record SQLExecution : Type := mkSQLExecution {
  cursor : Cursor;
  field_names : list string;
  rows_with_field_name : bool;
  rows_finished : bool
}.

(** [SQLExecution(sql, params, with_field_name)].  [execute] is
    [connection.reader_cursor.execute]: it gives the state of the reader
    cursor once the statement has run. *)
Definition __init__ (execute : string -> option (list value) -> Cursor)
           (sql : string) (params : option (list value)) (with_field_name : bool)
  : outcome SQLExecution :=
  let cursor := execute sql params in
  match description cursor with
  | None => Raised TypeError
  | Some fields =>
      Returned (mkSQLExecution cursor (map fst fields) with_field_name false)
  end.

Definition rowcount (self : SQLExecution) : Z := cursor_rowcount (cursor self).

(** [dict(izip(self.field_names, row))] *)
Definition row_dict (names : list string) (r : list value) : Dict.t value :=
  Dict.of_items (combine names r).

(** [self.rows.next()]: one step of [_rows_with_field_name] or
    [_raw_rows].  A generator that has finished raises [StopIteration]
    without calling [fetchone] again. *)
Definition rows_next (self : SQLExecution) : outcome row * SQLExecution :=
  if rows_finished self then (Raised StopIteration, self)
  else
    let '(fetched, cursor') := fetchone (cursor self) in
    match fetched with
    | None =>
        (Raised StopIteration,
         mkSQLExecution cursor' (field_names self) (rows_with_field_name self) true)
    | Some r =>
        (Returned (if rows_with_field_name self
                   then DictRow (row_dict (field_names self) r)
                   else TupleRow r),
         mkSQLExecution cursor' (field_names self) (rows_with_field_name self) false)
    end.

(** [for row in self.rows]: the rows yielded until [StopIteration], with
    [fuel] bounding the number of steps. *)
Fixpoint rows_all (fuel : nat) (self : SQLExecution)
  : option (list row * SQLExecution) :=
  match fuel with
  | O => None
  | S fuel' =>
      match rows_next self with
      | (Returned r, self') =>
          match rows_all fuel' self' with
          | Some (rs, self'') => Some (r :: rs, self'')
          | None => None
          end
      | (Raised _, self') => Some ([], self')
      end
  end.

(** The [scalar] property: the value of the first item of the next row.
    A dictionary without items leaves the loop and [None] is returned. *)
Definition scalar (self : SQLExecution) : outcome value * SQLExecution :=
  let '(next, self') := rows_next self in
  match next with
  | Raised e => (Raised e, self')
  | Returned (DictRow d) =>
      match d with
      | [] => (Returned VNone, self')
      | (key, v) :: _ => (Returned v, self')
      end
  | Returned (TupleRow _) => (Raised AttributeError, self')
  end.

End SQL.

(** What the generator yields for a row of the cursor. *)
Definition yielded (self : SQL.SQLExecution) (r : list value) : SQL.row :=
  if SQL.rows_with_field_name self
  then SQL.DictRow (SQL.row_dict (SQL.field_names self) r)
  else SQL.TupleRow r.

(** The object once [rows] has run to its end. *)
Definition drained (self : SQL.SQLExecution) : SQL.SQLExecution :=
  SQL.mkSQLExecution
    (SQL.mkCursor (SQL.description (SQL.cursor self)) []
       (SQL.cursor_rowcount (SQL.cursor self)))
    (SQL.field_names self) (SQL.rows_with_field_name self) true.

(** * Properties *)

(** ** Strings *)

Module PyStrFacts.
Import PyStr.

Lemma split_not_nil (sep : ascii) (s : string) : split sep s <> [].
Proof.
  induction s as [|c s IH]; simpl; [discriminate|].
  destruct (Ascii.eqb c sep); [discriminate|].
  destruct (split sep s); discriminate.
Qed.

(** Without a separator the string is the only piece. *)
Lemma split_no_sep (sep : ascii) (s : string) :
  has_char sep s = false -> split sep s = [s].
Proof.
  induction s as [|c s IH]; simpl; intros H; [reflexivity|].
  apply orb_false_iff in H. destruct H as [Hc Hs].
  rewrite Hc, (IH Hs). reflexivity.
Qed.

(** The first piece ends at the first separator. *)
Lemma split_first (sep : ascii) (a b : string) :
  has_char sep a = false ->
  split sep (a ++ String sep b)%string = a :: split sep b.
Proof.
  induction a as [|c a IH]; simpl; intros H.
  - rewrite Ascii.eqb_refl. reflexivity.
  - apply orb_false_iff in H. destruct H as [Hc Ha].
    rewrite Hc, (IH Ha). reflexivity.
Qed.

(** With a separator there are at least two pieces. *)
Lemma split_with_sep (sep : ascii) (s : string) :
  has_char sep s = true ->
  exists p q r, split sep s = p :: q :: r.
Proof.
  induction s as [|c s IH]; simpl; intros H; [discriminate|].
  destruct (Ascii.eqb c sep) eqn:Hc.
  - destruct (split sep s) as [|q r] eqn:Hs.
    + exfalso. exact (split_not_nil _ _ Hs).
    + exists EmptyString, q, r. reflexivity.
  - simpl in H. destruct (IH H) as (p & q & r & Hs).
    rewrite Hs. exists (String c p), q, r. reflexivity.
Qed.

(** A separator between two strings separates their pieces. *)
Lemma split_app (sep : ascii) (a b : string) :
  split sep (a ++ String sep b)%string = split sep a ++ split sep b.
Proof.
  induction a as [|c a IH]; simpl.
  - rewrite Ascii.eqb_refl. reflexivity.
  - rewrite IH. destruct (Ascii.eqb c sep); [reflexivity|].
    destruct (split sep a) as [|p r] eqn:Ha.
    + exfalso. exact (split_not_nil _ _ Ha).
    + reflexivity.
Qed.

Lemma endswith_refl (s : string) : endswith s s = true.
Proof.
  destruct s as [|c s]; [reflexivity|].
  change (endswith (String c s) (String c s))
    with (if String.eqb (String c s) (String c s) then true
          else endswith s (String c s)).
  rewrite String.eqb_refl. reflexivity.
Qed.

Lemma endswith_app (p s : string) : endswith (p ++ s)%string s = true.
Proof.
  induction p as [|c p IH].
  - apply endswith_refl.
  - change (endswith (String c p ++ s)%string s)
      with (if String.eqb (String c (p ++ s)%string) s then true
            else endswith (p ++ s)%string s).
    rewrite IH. destruct (String.eqb _ _); reflexivity.
Qed.

Lemma has_char_app (c : ascii) (a b : string) :
  has_char c (a ++ b)%string = has_char c a || has_char c b.
Proof.
  induction a as [|c' a IH]; simpl; [reflexivity|].
  rewrite IH. apply orb_assoc.
Qed.

End PyStrFacts.

(** ** Dictionaries *)

Module DictFacts.
Section DictFacts.

Variable V : Type.
Implicit Types (d : Dict.t V) (key k : string) (v : V).

Lemma lookup_setitem key k v d :
  Dict.lookup k (Dict.setitem key v d) =
  if String.eqb key k then Some v else Dict.lookup k d.
Proof.
  induction d as [|[k' w] d IH]; simpl.
  - reflexivity.
  - destruct (String.eqb k' key) eqn:E; simpl.
    + apply String.eqb_eq in E. subst k'.
      destruct (String.eqb key k); reflexivity.
    + rewrite IH. destruct (String.eqb k' k) eqn:E'; [|reflexivity].
      apply String.eqb_eq in E'. subst k'.
      rewrite String.eqb_sym, E. reflexivity.
Qed.

Lemma setitem_not_nil key v d : Dict.setitem key v d <> [].
Proof.
  destruct d as [|[k' w] d]; simpl; [discriminate|].
  destruct (String.eqb k' key); discriminate.
Qed.

Lemma lookup_remove_same key d :
  NoDup (Dict.keys d) -> Dict.lookup key (Dict.remove key d) = None.
Proof.
  induction d as [|[k' w] d IH]; simpl; intros Hnd; [reflexivity|].
  inversion Hnd as [|? ? Hnotin Hnd']; subst.
  destruct (String.eqb k' key) eqn:E; simpl.
  - apply String.eqb_eq in E. subst k'.
    clear IH Hnd Hnd'. induction d as [|[k2 w2] d IH]; simpl; [reflexivity|].
    destruct (String.eqb k2 key) eqn:E2.
    + apply String.eqb_eq in E2. subst k2. exfalso. apply Hnotin. left. reflexivity.
    + apply IH. intros Hin. apply Hnotin. right. exact Hin.
  - rewrite E. apply IH. exact Hnd'.
Qed.

Lemma keys_setitem_in key v d k :
  In k (Dict.keys (Dict.setitem key v d)) <-> k = key \/ In k (Dict.keys d).
Proof.
  induction d as [|[k' w] d IH]; simpl.
  - intuition.
  - destruct (String.eqb k' key) eqn:E; simpl.
    + apply String.eqb_eq in E. subst k'. intuition.
    + rewrite IH. intuition.
Qed.

(** The dictionary operations keep the keys distinct. *)
Lemma setitem_NoDup key v d :
  NoDup (Dict.keys d) -> NoDup (Dict.keys (Dict.setitem key v d)).
Proof.
  induction d as [|[k' w] d IH]; simpl; intros Hnd.
  - constructor; [intros []|constructor].
  - inversion Hnd as [|? ? Hnotin Hnd']; subst.
    destruct (String.eqb k' key) eqn:E; simpl.
    + constructor; assumption.
    + constructor; [|apply IH; exact Hnd'].
      intros Hin. apply keys_setitem_in in Hin. destruct Hin as [->|Hin].
      * rewrite String.eqb_refl in E. discriminate.
      * exact (Hnotin Hin).
Qed.

Lemma of_items_from_NoDup (l : list (string * V)) d :
  NoDup (Dict.keys d) ->
  NoDup (Dict.keys (fold_left (fun d kv => Dict.setitem (fst kv) (snd kv) d) l d)).
Proof.
  revert d. induction l as [|[k v] l IH]; simpl; intros d Hd; [exact Hd|].
  apply IH. apply setitem_NoDup. exact Hd.
Qed.

Lemma of_items_NoDup (l : list (string * V)) : NoDup (Dict.keys (Dict.of_items l)).
Proof. apply of_items_from_NoDup. constructor. Qed.

(** Entering a key that is not there yet puts it after the others. *)
Lemma setitem_fresh key v d :
  Dict.lookup key d = None -> Dict.setitem key v d = d ++ [(key, v)].
Proof.
  induction d as [|[k' w] d IH]; simpl; intros H; [reflexivity|].
  destruct (String.eqb k' key); [discriminate|].
  rewrite (IH H). reflexivity.
Qed.

Lemma lookup_app_fresh key d d' :
  Dict.lookup key (d ++ d') =
  match Dict.lookup key d with Some v => Some v | None => Dict.lookup key d' end.
Proof.
  induction d as [|[k' w] d IH]; simpl; [reflexivity|].
  destruct (String.eqb k' key); [reflexivity|exact IH].
Qed.

Lemma lookup_None_notin key d :
  Dict.lookup key d = None <-> ~ In key (Dict.keys d).
Proof.
  induction d as [|[k' w] d IH]; simpl.
  - intuition.
  - destruct (String.eqb k' key) eqn:E.
    + apply String.eqb_eq in E. split; [discriminate|]. intros H. exfalso. auto.
    + apply String.eqb_neq in E. rewrite IH. intuition.
Qed.

(** Copying a dictionary (distinct keys) gives the same entries; in this
    representation, in the same order. *)
Lemma of_items_copy (l : list (string * V)) :
  NoDup (Dict.keys l) -> Dict.of_items l = l.
Proof.
  unfold Dict.of_items.
  assert (G : forall (l d : list (string * V)),
             NoDup (Dict.keys (d ++ l)) ->
             fold_left (fun d kv => Dict.setitem (fst kv) (snd kv) d) l d = d ++ l).
  { clear l. induction l as [|[k v] l IH]; intros d Hnd; simpl.
    - rewrite app_nil_r. reflexivity.
    - rewrite setitem_fresh.
      + rewrite IH; rewrite <- app_assoc; [reflexivity|exact Hnd].
      + apply lookup_None_notin. unfold Dict.keys in *.
        rewrite map_app in Hnd. simpl in Hnd.
        apply NoDup_remove_2 in Hnd. intros Hin. apply Hnd.
        apply in_or_app. left. exact Hin. }
  intros Hnd. apply (G l []). exact Hnd.
Qed.

Lemma of_items_nil_inv (l : list (string * V)) : Dict.of_items l = [] -> l = [].
Proof.
  unfold Dict.of_items. destruct l as [|[k v] l]; [reflexivity|]. simpl.
  assert (G : forall (l d : list (string * V)), d <> [] ->
             fold_left (fun d kv => Dict.setitem (fst kv) (snd kv) d) l d <> []).
  { clear. induction l as [|[k v] l IH]; intros d Hd; simpl; [exact Hd|].
    apply IH. apply setitem_not_nil. }
  intros H. exfalso. exact (G l [(k, v)] ltac:(discriminate) H).
Qed.

End DictFacts.
End DictFacts.

(** ** Strict access and defaults *)

Lemma contains_false_lookup (g : GroupByResult) (K : string) :
  __contains__ g K = false -> Dict.lookup K (_data g) = None.
Proof.
  unfold __contains__, Dict.contains.
  destruct (Dict.lookup K (_data g)); [discriminate|reflexivity].
Qed.

Lemma lookup_contains (g : GroupByResult) (K : string) (v : value) :
  Dict.lookup K (_data g) = Some v -> __contains__ g K = true.
Proof.
  unfold __contains__, Dict.contains. intros ->. reflexivity.
Qed.

(** C8: for a key K that is absent from the entries, [self[K]] raises
    KeyError, [del self[K]] raises KeyError, and [self.get(K, d)] returns
    the default d. *)
Theorem C8_absent_key_access (g : GroupByResult) (K : string) :
  __contains__ g K = false ->
  __getitem__ g K = Raise (KeyError K) /\
  __delitem__ g K = Raise (KeyError K) /\
  forall d : value, get g K d = d.
Proof.
  intros H. apply contains_false_lookup in H.
  destruct g as [tn data tr meta]. simpl in H.
  unfold __getitem__, __delitem__, get, Dict.getitem, Dict.delitem, Dict.get.
  simpl. rewrite H. simpl. auto.
Qed.

Lemma C8_absent_key_access_witness :
  let g := mkGroupByResult None [("A", VInt 1)] (VInt 1) None in
  __contains__ g "Z" = false /\
  __getitem__ g "Z" = Raise (KeyError "Z") /\
  __delitem__ g "Z" = Raise (KeyError "Z") /\
  forall d : value, get g "Z" d = d.
Proof.
  split; [reflexivity|].
  apply (C8_absent_key_access (mkGroupByResult None [("A", VInt 1)] (VInt 1) None) "Z").
  reflexivity.
Defined.

(** ** The derived total *)

(** [_get_total] reads [_total_name] and [_data] only. *)
Lemma _get_total_fields tn data tr meta tr' meta' :
  _get_total (mkGroupByResult tn data tr meta) =
  _get_total (mkGroupByResult tn data tr' meta').
Proof. destruct data; reflexivity. Qed.

Lemma empty_data (g : GroupByResult) : empty g = true <-> _data g = [].
Proof.
  unfold empty, __len__, Dict.len. destruct (_data g); simpl.
  - split; reflexivity.
  - split; discriminate.
Qed.

(** C7: when [_total_name] is set and names an entry, [total] is that
    entry's value, whatever the other entries are; and the total of an
    empty result is 0, also when [_total_name] is set. *)
Theorem C7_total_name_entry_is_total (g : GroupByResult) (name : string) :
  _total_name g = Some name ->
  (forall v : value, Dict.lookup name (_data g) = Some v -> total g = Ok v) /\
  (empty g = true -> total g = Ok (VInt 0)).
Proof.
  intros Hn. destruct g as [tn data tr meta]. simpl in Hn. subst tn. split.
  - intros v Hv. simpl in Hv. unfold total. simpl.
    destruct data as [|e data]; [discriminate|].
    unfold Dict.getitem. rewrite Hv. reflexivity.
  - intros He. apply empty_data in He. simpl in He. subst data. reflexivity.
Qed.

Lemma C7_total_name_entry_is_total_witness :
  let g := mkGroupByResult (Some "ALL")
             [("A", VInt 100); ("B", VInt 200); ("ALL", VInt 999)] (VInt 999) None in
  let e := mkGroupByResult (Some "ALL") [] (VInt 0) None in
  total g = Ok (VInt 999) /\ total e = Ok (VInt 0).
Proof.
  split.
  - apply (proj1 (C7_total_name_entry_is_total
                    (mkGroupByResult (Some "ALL")
                       [("A", VInt 100); ("B", VInt 200); ("ALL", VInt 999)]
                       (VInt 999) None) "ALL" eq_refl)).
    reflexivity.
  - apply (proj2 (C7_total_name_entry_is_total
                    (mkGroupByResult (Some "ALL") [] (VInt 0) None) "ALL" eq_refl)).
    reflexivity.
Defined.

(** The example of the specification, through the constructor. *)
Example total_name_ALL :
  (g <- __init__ [("A", VInt 100); ("B", VInt 200); ("ALL", VInt 999)] (Some "ALL") ;;
   total g) = Ok (VInt 999).
Proof. reflexivity. Qed.

Example total_of_empty :
  (g <- __init__ [] None ;; t <- total g ;; Ok (t, empty g)) = Ok (VInt 0, true).
Proof. reflexivity. Qed.

(** C9: when the result is not empty and [_total_name] names a key that is
    not among the entries, [total] raises KeyError, and so does the
    constructor on any data whose copy is these entries, since it computes
    the total. *)
Theorem C9_missing_total_name_faults (g : GroupByResult) (name : string) :
  _data g <> [] ->
  _total_name g = Some name ->
  __contains__ g name = false ->
  total g = Raise (KeyError name) /\
  forall data : items,
    Dict.of_items data = _data g ->
    __init__ data (Some name) = Raise (KeyError name).
Proof.
  intros Hne Hn Hc. apply contains_false_lookup in Hc.
  destruct g as [tn d tr meta]. simpl in *. subst tn.
  assert (Ht : forall tr' meta',
             _get_total (mkGroupByResult (Some name) d tr' meta') = Raise (KeyError name)).
  { intros tr' meta'. simpl. destruct d as [|e d]; [contradiction|].
    unfold Dict.getitem. rewrite Hc. reflexivity. }
  split.
  - exact (Ht tr meta).
  - intros data Hd. unfold __init__. rewrite Hd, Ht. reflexivity.
Qed.

Lemma C9_missing_total_name_faults_witness :
  let g := mkGroupByResult (Some "ALL") [("A", VInt 100); ("B", VInt 200)] (VInt 0) None in
  total g = Raise (KeyError "ALL") /\
  __init__ [("A", VInt 100); ("B", VInt 200)] (Some "ALL") = Raise (KeyError "ALL").
Proof.
  pose proof (C9_missing_total_name_faults
                (mkGroupByResult (Some "ALL") [("A", VInt 100); ("B", VInt 200)] (VInt 0) None)
                "ALL" ltac:(discriminate) eq_refl eq_refl) as [H1 H2].
  split; [exact H1|]. apply H2. reflexivity.
Defined.

(** ** Attribute probing: [__getattr__] and [_get_percent] *)

Lemma endswith_percent (prefix : string) :
  PyStr.endswith (prefix ++ "_percent")%string "_percent" = true.
Proof. apply PyStrFacts.endswith_app. Qed.

Lemma split_percent (prefix : string) :
  PyStr.split "_" (prefix ++ "_percent")%string =
  PyStr.split "_" prefix ++ ["percent"].
Proof. exact (PyStrFacts.split_app "_" prefix "percent"). Qed.

(** C1: a probed name that ends in [_percent] and has a second underscore
    before it makes [__getattr__] raise ValueError (the unpacking of
    [name.split('_')] into two names), whatever the entries are: the probe
    does not return 0. *)
Theorem C1_getattr_second_underscore_faults (g : GroupByResult) (prefix : string) :
  PyStr.has_char "_" prefix = true ->
  __getattr__ g (prefix ++ "_percent")%string = Raise ValueError.
Proof.
  intros H. unfold __getattr__.
  rewrite endswith_percent, split_percent.
  destruct (PyStrFacts.split_with_sep _ _ H) as (p & q & r & ->).
  simpl. destruct r; reflexivity.
Qed.

Lemma C1_getattr_second_underscore_faults_witness :
  PyStr.has_char "_" "A_B" = true /\
  __getattr__ Examples.one_entry "A_B_percent" = Raise ValueError.
Proof.
  split; [reflexivity|].
  apply (C1_getattr_second_underscore_faults Examples.one_entry "A_B").
  reflexivity.
Defined.


Lemma getattr_percent_of_absent (g : GroupByResult) (K : string) :
  PyStr.has_char "_" K = false ->
  __contains__ g K = false ->
  __getattr__ g (K ++ "_percent")%string = Ok (VInt 0).
Proof.
  intros HK Hc. unfold __getattr__.
  rewrite endswith_percent, split_percent, (PyStrFacts.split_no_sep _ _ HK).
  simpl. rewrite Hc. reflexivity.
Qed.

Lemma getattr_percent_of_present (g : GroupByResult) (K : string) :
  PyStr.has_char "_" K = false ->
  __contains__ g K = true ->
  __getattr__ g (K ++ "_percent")%string = _get_percent g K.
Proof.
  intros HK Hc. unfold __getattr__.
  rewrite endswith_percent, split_percent, (PyStrFacts.split_no_sep _ _ HK).
  simpl. rewrite Hc. reflexivity.
Qed.

Lemma lookup_In (K : string) (v : value) (d : items) :
  Dict.lookup K d = Some v -> In (K, v) d.
Proof.
  induction d as [|[k w] d IH]; simpl; [discriminate|].
  destruct (String.eqb k K) eqn:E.
  - apply String.eqb_eq in E. intros H. injection H as <-. left. congruence.
  - intros H. right. exact (IH H).
Qed.


(** A key that is the name of a regular attribute is not answered by the
    hook either: [self.total] is the property. *)
Example probe_of_key_named_total :
  (g <- __init__ [("total", VInt 1); ("B", VInt 5)] None ;;
   Ok (__contains__ g "total", getattr g "total")) =
    Ok (true, TotalProperty (Ok (VInt 6))).
Proof. reflexivity. Qed.



(** *** The total a percentage is taken of *)

(** The constructor stores the total of the entries it was given. *)
Lemma init_fields (data : items) (tn : option string) (g0 : GroupByResult) :
  __init__ data tn = Ok g0 ->
  _total_name g0 = tn /\ _data g0 = Dict.of_items data /\
  _meta g0 = None /\ total g0 = Ok (_total_result g0).
Proof.
  unfold __init__, total.
  destruct (_get_total (mkGroupByResult tn (Dict.of_items data) VNone None))
    as [t|e] eqn:Ht; simpl; [|discriminate].
  intros H. injection H as <-. repeat split.
  etransitivity; [exact (_get_total_fields tn _ t None VNone None)|exact Ht].
Qed.

(** [self[key] = v] and [del self[key]] touch the entries only. *)
Lemma mutate_fields (g g' : GroupByResult) (m : mutation) :
  mutate g m = Ok g' ->
  _total_name g' = _total_name g /\ _total_result g' = _total_result g /\
  _meta g' = _meta g.
Proof.
  destruct g as [tn d tr meta]. destruct m as [key v|key]; simpl.
  - intros H. injection H as <-. simpl. auto.
  - destruct (Dict.delitem key d) as [d'|e]; simpl; [|discriminate].
    intros H. injection H as <-. simpl. auto.
Qed.

Lemma mutate_all_fields (ms : list mutation) (g g' : GroupByResult) :
  mutate_all g ms = Ok g' ->
  _total_name g' = _total_name g /\ _total_result g' = _total_result g /\
  _meta g' = _meta g.
Proof.
  revert g. induction ms as [|m ms IH]; intros g; simpl.
  - intros H. injection H as <-. auto.
  - destruct (mutate g m) as [g1|e] eqn:Hm; simpl; [|discriminate].
    intros H. apply IH in H. apply mutate_fields in Hm.
    destruct H as (-> & -> & ->). exact Hm.
Qed.

(** For a key K without underscore whose entry is an integer s, probing
    [K_percent] returns [s * 100.0 / T] computed in floats, where T is the
    total that the constructor computed and stored (an integer here), and
    0.0 when T is 0; assignments and deletions made since the construction
    do not change T.  There is no ZeroDivisionError; an integer too large
    for a float gives OverflowError. *)
Lemma percent_of_construction_total
  (data : items) (total_name : option string) (g0 g : GroupByResult)
  (ms : list mutation) (K : string) (s t : Z) :
  __init__ data total_name = Ok g0 ->
  total g0 = Ok (VInt t) ->
  mutate_all g0 ms = Ok g ->
  PyStr.has_char "_" K = false ->
  Dict.lookup K (_data g) = Some (VInt s) ->
  __getattr__ g (K ++ "_percent")%string =
  if t =? 0 then Ok (VFloat 0)
  else fs <- PyNum.float_of_int s ;;
       ft <- PyNum.float_of_int t ;;
       Ok (VFloat (fs * 100 / ft)).
Proof.
  intros Hinit Ht Hms HK Hs.
  apply init_fields in Hinit. destruct Hinit as (_ & _ & _ & Ht0).
  rewrite Ht in Ht0.
  assert (Ht1 : _total_result g0 = VInt t).
  { destruct (_total_result g0); inversion Ht0; reflexivity. }
  apply mutate_all_fields in Hms. destruct Hms as (_ & Htr & _).
  rewrite Ht1 in Htr.
  rewrite (getattr_percent_of_present g K HK (lookup_contains g K _ Hs)).
  unfold _get_percent, __getitem__, Dict.getitem. rewrite Hs, Htr. simpl.
  destruct (t =? 0) eqn:E; [reflexivity|].
  destruct (PyNum.float_of_int s) as [fs|e]; simpl; [|reflexivity].
  destruct (PyNum.float_of_int t) as [ft|e]; reflexivity.
Qed.

(** Before any assignment the stored total is the total, and the
    percentage is the one of the claim. *)
Lemma percent_of_fresh_object
  (data : items) (total_name : option string) (g : GroupByResult)
  (K : string) (s t : Z) :
  __init__ data total_name = Ok g ->
  total g = Ok (VInt t) ->
  PyStr.has_char "_" K = false ->
  Dict.lookup K (_data g) = Some (VInt s) ->
  __getattr__ g (K ++ "_percent")%string =
  if t =? 0 then Ok (VFloat 0)
  else fs <- PyNum.float_of_int s ;;
       ft <- PyNum.float_of_int t ;;
       Ok (VFloat (fs * 100 / ft)).
Proof.
  intros Hinit Ht HK Hs.
  exact (percent_of_construction_total data total_name g g [] K s t
           Hinit Ht eq_refl HK Hs).
Qed.

(** C2: the percentage is not taken of the total at the time of the
    probe.  [GroupByResult({'A': 5})] followed by [self['B'] = 5] has total
    10 and A = 5, and probing [A_percent] returns 100.0, the percentage of
    the total 5 stored by the constructor, where 100 * 5 / 10 is 50.0. *)
Theorem C2_percent_stale_after_set :
  __init__ [("A", VInt 5)] None = Ok Examples.one_entry /\
  mutate_all Examples.one_entry [SetItem "B" (VInt 5)] = Ok Examples.one_entry_then_set /\
  __getitem__ Examples.one_entry_then_set "A" = Ok (VInt 5) /\
  total Examples.one_entry_then_set = Ok (VInt 10) /\
  __getattr__ Examples.one_entry_then_set "A_percent" = Ok (VFloat 100%float) /\
  VFloat 100%float <> VFloat (100 * 5 / 10)%float.
Proof.
  repeat split; try reflexivity.
  intros H.
  apply (f_equal (fun v => match v with
                           | VFloat x => PrimFloat.eqb x 100
                           | _ => false
                           end)) in H.
  vm_compute in H. discriminate.
Qed.

(** The examples of the specification. *)
Example percent_A_B :
  (g <- __init__ [("A", VInt 100); ("B", VInt 200)] None ;;
   t <- total g ;; a <- __getattr__ g "A_percent" ;; b <- __getattr__ g "B_percent" ;;
   z <- __getattr__ g "Z_percent" ;; Ok (t, a, b, z)) =
  Ok (VInt 300, VFloat (100 * 100 / 300)%float, VFloat (200 * 100 / 300)%float, VInt 0).
Proof. reflexivity. Qed.

Example percent_of_zero_total :
  (g <- __init__ [("A", VInt 0); ("B", VInt 0)] None ;; __getattr__ g "A_percent") =
  Ok (VFloat 0).
Proof. reflexivity. Qed.


(** ** Summation *)

Lemma sum_subtotals_summed (f : GroupByResult -> result value)
      (entries : items) (acc : value) :
  sum_subtotals f entries acc = sum_subtotals f (summed_entries entries) acc.
Proof.
  revert acc. induction entries as [|[k v] entries IH]; intros acc; [reflexivity|].
  destruct v; simpl.
  - destruct (py_add acc (VInt z)); simpl; [apply IH|reflexivity].
  - apply IH.
  - apply IH.
  - apply IH.
  - destruct (f g); simpl; [|reflexivity].
    destruct (py_add acc a); simpl; [apply IH|reflexivity].
Qed.

(** With no nested result among the entries the loop adds the integers
    and nothing else. *)
Lemma sum_subtotals_flat (f : GroupByResult -> result value)
      (entries : items) (acc : Z) :
  all_leaves entries = true ->
  sum_subtotals f entries (VInt acc) =
  Ok (VInt (acc + sum (map (fun kv : string * value =>
                              match snd kv with VInt z => z | _ => 0 end) entries))).
Proof.
  revert acc. induction entries as [|[k v] entries IH]; intros acc H; simpl.
  - rewrite Z.add_0_r. reflexivity.
  - simpl in H. apply andb_true_iff in H. destruct H as [Hv H].
    destruct v; simpl in *; try discriminate;
      rewrite (IH _ H); do 2 f_equal; lia.
Qed.

(** C3, as stated, fails: the text entry is passed over and the total is
    0; nothing is raised. *)
Lemma C3_counterexample :
  __init__ [("A", VStr "abc")] None = Ok Examples.text_entry /\
  _total_name Examples.text_entry = None /\
  empty Examples.text_entry = false /\
  is_summed (VStr "abc") = false /\
  total Examples.text_entry = Ok (VInt 0) /\
  raises (total Examples.text_entry) = false.
Proof. repeat split. Qed.

(** C3 (amended): with no [_total_name], [total] passes over the entries
    that are neither integers nor nested results: it is the total of the
    same result without them, and when no entry is a nested result it is
    the sum of the integer entries, with nothing raised. *)
Theorem C3_total_skips_other_entries (g : GroupByResult) :
  _total_name g = None ->
  total g =
    total (mkGroupByResult None (summed_entries (_data g)) (_total_result g) (_meta g)) /\
  (all_leaves (_data g) = true ->
   total g = Ok (VInt (sum (map (fun kv : string * value =>
                                   match snd kv with VInt z => z | _ => 0 end)
                                (_data g))))).
Proof.
  destruct g as [tn data tr meta]. simpl. intros ->. unfold total. split.
  - destruct data as [|e data]; [reflexivity|].
    change (_get_total (mkGroupByResult None (e :: data) tr meta))
      with (sum_subtotals _get_total (e :: data) (VInt 0)).
    rewrite sum_subtotals_summed.
    destruct (summed_entries (e :: data)); reflexivity.
  - intros H. destruct data as [|e data]; [reflexivity|].
    change (_get_total (mkGroupByResult None (e :: data) tr meta))
      with (sum_subtotals _get_total (e :: data) (VInt 0)).
    rewrite (sum_subtotals_flat _ _ 0 H). reflexivity.
Qed.

Lemma C3_total_skips_other_entries_witness :
  let g := mkGroupByResult None [("A", VStr "abc"); ("B", VInt 2); ("C", VNone)]
             (VInt 2) None in
  total g = total (mkGroupByResult None [("B", VInt 2)] (VInt 2) None) /\
  total g = Ok (VInt 2).
Proof.
  pose proof (C3_total_skips_other_entries
                (mkGroupByResult None [("A", VStr "abc"); ("B", VInt 2); ("C", VNone)]
                   (VInt 2) None) eq_refl) as [H1 H2].
  split; [exact H1|]. apply H2. reflexivity.
Defined.

Lemma sum_app (l l' : list Z) : sum (l ++ l') = sum l + sum l'.
Proof. induction l as [|z l IH]; simpl; [reflexivity|]. rewrite IH. lia. Qed.

(** The loop over a tree of integers, given that the nested totals are
    the sums of the nested leaves. *)
Lemma sum_subtotals_int_tree (entries : items) :
  Forall (on_nested (fun sub => int_tree sub = true ->
                                _get_total sub = Ok (VInt (sum (leaf_values sub)))))
         entries ->
  forall tr meta acc,
    int_tree (mkGroupByResult None entries tr meta) = true ->
    sum_subtotals _get_total entries (VInt acc) =
    Ok (VInt (acc + sum (leaf_values (mkGroupByResult None entries tr meta)))).
Proof.
  induction 1 as [|[k v] entries Hv Hrest IH]; intros tr meta acc Ht.
  - simpl. rewrite Z.add_0_r. reflexivity.
  - simpl in Ht. apply andb_true_iff in Ht. destruct Ht as [Hkv Ht].
    specialize (IH tr meta).
    destruct v as [z| | | |sub]; try discriminate.
    + simpl. simpl in IH. rewrite (IH _ Ht). do 2 f_equal. lia.
    + unfold on_nested in Hv. simpl in Hv.
      change (sum_subtotals _get_total ((k, VGroup sub) :: entries) (VInt acc))
        with (sub_total <- _get_total sub ;;
              total' <- py_add (VInt acc) sub_total ;;
              sum_subtotals _get_total entries total').
      rewrite (Hv Hkv). simpl. simpl in IH. rewrite (IH _ Ht).
      rewrite sum_app. do 2 f_equal. lia.
Qed.

(** C5: when the entries hold, at every depth, only integers and nested
    results, and no level has a [_total_name], [total] is the sum of the
    leaves met depth first (the non-empty results and the empty one
    alike). *)
Theorem C5_total_is_sum_of_leaves (g : GroupByResult) :
  int_tree g = true -> total g = Ok (VInt (sum (leaf_values g))).
Proof.
  unfold total. induction g as [tn data tr meta IH] using GroupByResult_nested_ind.
  intros Ht. destruct tn as [name|]; [discriminate|].
  destruct data as [|e data]; [reflexivity|].
  change (_get_total (mkGroupByResult None (e :: data) tr meta))
    with (sum_subtotals _get_total (e :: data) (VInt 0)).
  rewrite (sum_subtotals_int_tree _ IH tr meta 0 Ht). reflexivity.
Qed.

Lemma C5_total_is_sum_of_leaves_witness :
  int_tree Examples.nested = true /\
  leaf_values Examples.nested = [1; 2; 5] /\
  total Examples.nested = Ok (VInt (sum (leaf_values Examples.nested))).
Proof.
  split; [reflexivity|]. split; [reflexivity|].
  apply (C5_total_is_sum_of_leaves Examples.nested). reflexivity.
Defined.

(** The nesting example of the specification. *)
Example nested_total_and_count :
  (x <- __init__ [("A", VInt 1); ("B", VInt 2)] None ;;
   g <- __init__ [("X", VGroup x); ("Y", VInt 5)] None ;;
   t <- total g ;; Ok (t, fst (leaf_values_count false false g))) =
  Ok (VInt 8, 3).
Proof. reflexivity. Qed.

(** ** Counting leaf values *)

Section CountLoopFacts.

Variable count_of : GroupByResult -> Z * GroupByResult.
Variable value_in_row : bool.

Let loop := count_leaves count_of value_in_row.


Lemma count_leaves_cons (k : string) (v : value) (rest : items) (count : Z) :
  fst (loop ((k, v) :: rest) count) = fst (loop rest (next_count count_of value_in_row count v)).
Proof.
  subst loop. simpl.
  destruct v as [z|f|s| |sub]; simpl;
    try (destruct (count_leaves count_of value_in_row rest
                     (if value_in_row then 1 else count + 1)); reflexivity).
  destruct (count_of sub) as [c sub']. simpl.
  destruct (count_leaves count_of value_in_row rest (count + c)). reflexivity.
Qed.

(** The loop over [pre ++ post] is the loop over [post] started with
    the count the loop over [pre] ends with. *)
Lemma count_leaves_app (pre post : items) (count : Z) :
  fst (loop (pre ++ post) count) = fst (loop post (fst (loop pre count))).
Proof.
  revert count.
  induction pre as [|[k v] pre IH]; intros count; [reflexivity|].
  rewrite <- app_comm_cons, !count_leaves_cons. apply IH.
Qed.

(** Nested results only: every one adds its count. *)
Lemma count_leaves_groups (entries : items) (count : Z) :
  all_groups entries = true ->
  fst (loop entries count) = count + counts_of_nested count_of entries.
Proof.
  unfold counts_of_nested. revert count.
  induction entries as [|[k v] entries IH]; intros count H.
  - simpl. lia.
  - simpl in H. apply andb_true_iff in H. destruct H as [Hv H].
    rewrite count_leaves_cons, (IH _ H).
    destruct v as [z|f|s| |sub]; try discriminate. simpl. lia.
Qed.

(** Leaves only, counted one by one. *)
Lemma count_leaves_leaves (entries : items) (count : Z) :
  value_in_row = false ->
  all_leaves entries = true ->
  fst (loop entries count) = count + Dict.len entries.
Proof.
  unfold Dict.len. intros Hvir. revert count.
  induction entries as [|[k v] entries IH]; intros count H.
  - simpl. lia.
  - simpl in H. apply andb_true_iff in H. destruct H as [Hv H].
    rewrite count_leaves_cons, (IH _ H). unfold next_count. rewrite Hvir.
    destruct v as [z|f|s| |sub]; try discriminate;
      cbn [List.length]; lia.
Qed.

(** A leaf met with [value_in_row] set: the count restarts at 1. *)
Lemma count_leaves_leaf_in_row (k : string) (v : value) (post : items) (count : Z) :
  value_in_row = true ->
  is_group v = false ->
  fst (loop ((k, v) :: post) count) = fst (loop post 1).
Proof.
  intros Hvir Hv. rewrite count_leaves_cons. unfold next_count. rewrite Hvir.
  destruct v as [z|f|s| |sub]; try discriminate; reflexivity.
Qed.

End CountLoopFacts.

Lemma counts_of_nested_lvc (value_in_row : bool) (entries : items) :
  counts_of_nested (leaf_values_count value_in_row false) entries =
  nested_counts value_in_row entries.
Proof. reflexivity. Qed.

(** What a call computes when it does not answer from the cache. *)
Lemma leaf_values_count_computes (value_in_row refresh : bool) (g : GroupByResult) :
  refresh = true \/ _meta g = None ->
  fst (leaf_values_count value_in_row refresh g) =
  fst (count_leaves (leaf_values_count value_in_row false) value_in_row (_data g) 0).
Proof.
  destruct g as [tn data tr meta]. simpl.
  intros [-> | ->].
  - destruct (count_leaves _ _ data 0). destruct meta; reflexivity.
  - destruct (count_leaves _ _ data 0). destruct refresh; reflexivity.
Qed.

(** Every call leaves its answer in the cache. *)
Lemma leaf_values_count_caches (value_in_row refresh : bool) (g : GroupByResult) :
  _meta (snd (leaf_values_count value_in_row refresh g)) =
  Some (fst (leaf_values_count value_in_row refresh g)).
Proof.
  destruct g as [tn data tr meta]. simpl.
  destruct refresh, meta as [c|]; simpl;
    try destruct (count_leaves _ _ data 0); reflexivity.
Qed.

(** A call without [refresh] answers from the cache when there is one. *)
Lemma leaf_values_count_cached (value_in_row : bool) (g : GroupByResult) (c : Z) :
  _meta g = Some c -> leaf_values_count value_in_row false g = (c, g).
Proof. destruct g as [tn data tr meta]. simpl. intros ->. reflexivity. Qed.

(** C4: when a call with [value_in_row] set computes (with [refresh], or
    with no cached count), every nested result adds the count of its own
    [leaf_values_count(value_in_row)], and a leaf sets the count of the
    level to 1: with only nested results the count is the sum of theirs;
    with a leaf, it is 1 plus the counts of the nested results met after
    the last leaf, however many leaves came before. *)
Theorem C4_value_in_row_count (g : GroupByResult) (refresh : bool) :
  refresh = true \/ _meta g = None ->
  (all_groups (_data g) = true ->
   fst (leaf_values_count true refresh g) = nested_counts true (_data g)) /\
  (forall (pre post : items) (k : string) (v : value),
      _data g = pre ++ (k, v) :: post ->
      is_group v = false ->
      all_groups post = true ->
      fst (leaf_values_count true refresh g) = 1 + nested_counts true post) /\
  (_data g <> [] -> all_leaves (_data g) = true ->
   fst (leaf_values_count true refresh g) = 1).
Proof.
  intros H. rewrite (leaf_values_count_computes true refresh g H).
  assert (Hlast : forall (pre post : items) (k : string) (v : value),
             _data g = pre ++ (k, v) :: post ->
             is_group v = false ->
             all_groups post = true ->
             fst (count_leaves (leaf_values_count true false) true (_data g) 0) =
             1 + nested_counts true post).
  { intros pre post k v Hd Hv Hpost. rewrite Hd, count_leaves_app.
    rewrite count_leaves_leaf_in_row by (reflexivity || exact Hv).
    rewrite (count_leaves_groups _ _ _ _ Hpost). reflexivity. }
  split; [|split].
  - intros Hg. rewrite (count_leaves_groups _ _ _ _ Hg). reflexivity.
  - exact Hlast.
  - intros Hne Hl.
    destruct (exists_last Hne) as (pre & [k v] & Hd).
    rewrite (Hlast pre [] k v Hd); [reflexivity| |reflexivity].
    unfold all_leaves in Hl. rewrite Hd, forallb_app in Hl.
    apply andb_true_iff in Hl. destruct Hl as [_ Hl]. simpl in Hl.
    destruct (is_group v); [discriminate|reflexivity].
Qed.

Lemma C4_value_in_row_count_witness :
  let g := mkGroupByResult None
             [("P", VGroup Examples.two_leaves); ("A", VInt 1); ("B", VInt 2);
              ("X", VGroup Examples.nested); ("Y", VGroup Examples.two_leaves)]
             (VInt 17) None in
  fst (leaf_values_count true false g) =
  1 + nested_counts true [("X", VGroup Examples.nested); ("Y", VGroup Examples.two_leaves)] /\
  fst (leaf_values_count true false g) = 3 /\
  fst (leaf_values_count true true Examples.two_leaves) = 1.
Proof.
  split; [|split].
  - apply (proj1 (proj2 (C4_value_in_row_count
             (mkGroupByResult None
                [("P", VGroup Examples.two_leaves); ("A", VInt 1); ("B", VInt 2);
                 ("X", VGroup Examples.nested); ("Y", VGroup Examples.two_leaves)]
                (VInt 17) None) false (or_intror eq_refl)))
           [("P", VGroup Examples.two_leaves); ("A", VInt 1)]
           [("X", VGroup Examples.nested); ("Y", VGroup Examples.two_leaves)]
           "B" (VInt 2)); reflexivity.
  - reflexivity.
  - apply (proj2 (proj2 (C4_value_in_row_count Examples.two_leaves true
                           (or_introl eq_refl)))).
    + discriminate.
    + reflexivity.
Defined.

(** C6: once a call has computed, every later call without [refresh]
    returns that count and leaves the object as it is, whatever
    assignments and deletions were made in between and whatever
    [value_in_row] is passed; a call with [refresh] runs the loop over the
    entries as they are now, which for leaves counted one by one is their
    number. *)
Theorem C6_leaf_count_memoized
  (g g2 : GroupByResult) (value_in_row refresh value_in_row' : bool)
  (ms : list mutation) :
  mutate_all (snd (leaf_values_count value_in_row refresh g)) ms = Ok g2 ->
  leaf_values_count value_in_row' false g2 =
    (fst (leaf_values_count value_in_row refresh g), g2) /\
  fst (leaf_values_count value_in_row' true g2) =
    fst (count_leaves (leaf_values_count value_in_row' false) value_in_row'
           (_data g2) 0) /\
  (all_leaves (_data g2) = true ->
   fst (leaf_values_count false true g2) = __len__ g2).
Proof.
  intros Hms. apply mutate_all_fields in Hms. destruct Hms as (_ & _ & Hmeta).
  rewrite leaf_values_count_caches in Hmeta.
  split; [|split].
  - apply leaf_values_count_cached. exact Hmeta.
  - apply leaf_values_count_computes. left. reflexivity.
  - intros Hl. rewrite leaf_values_count_computes by (left; reflexivity).
    rewrite (count_leaves_leaves _ _ _ _ eq_refl Hl). reflexivity.
Qed.

Lemma C6_leaf_count_memoized_witness :
  let g1 := snd (leaf_values_count false false Examples.two_leaves) in
  let g2 := __setitem__ g1 "C" (VInt 3) in
  fst (leaf_values_count false false Examples.two_leaves) = 2 /\
  leaf_values_count false false g2 = (2, g2) /\
  fst (leaf_values_count false true g2) = 3.
Proof.
  pose proof (C6_leaf_count_memoized Examples.two_leaves
                (__setitem__ (snd (leaf_values_count false false Examples.two_leaves))
                   "C" (VInt 3))
                false false false [SetItem "C" (VInt 3)] eq_refl) as (H1 & _ & H3).
  split; [reflexivity|]. split; [exact H1|].
  rewrite H3; reflexivity.
Defined.

(** The memoization example of the specification, through the
    constructor. *)
Example leaf_count_stale_then_refreshed :
  (g <- __init__ [("A", VInt 1); ("B", VInt 2)] None ;;
   let '(c1, g1) := leaf_values_count false false g in
   let g2 := __setitem__ g1 "C" (VInt 3) in
   let '(c2, g3) := leaf_values_count false false g2 in
   let '(c3, _) := leaf_values_count false true g3 in
   Ok (c1, c2, c3)) = Ok (2, 2, 3).
Proof. reflexivity. Qed.

(** * Further properties of [GroupByResult] *)

(** ** The container: assignment, deletion, [setdefault], [len] *)

Module DictMore.
Section DictMore.

Variable V : Type.
Implicit Types (d : Dict.t V) (key k : string) (v : V).

Lemma length_setitem key v d :
  List.length (Dict.setitem key v d) =
  if Dict.contains key d then List.length d else S (List.length d).
Proof.
  unfold Dict.contains. induction d as [|[k' w] d IH]; simpl; [reflexivity|].
  destruct (String.eqb k' key); simpl; [reflexivity|].
  rewrite IH. destruct (Dict.lookup key d); reflexivity.
Qed.

Lemma lookup_remove_other key k d :
  k <> key -> Dict.lookup k (Dict.remove key d) = Dict.lookup k d.
Proof.
  intros Hk. induction d as [|[k' w] d IH]; simpl; [reflexivity|].
  destruct (String.eqb k' key) eqn:E; simpl.
  - apply String.eqb_eq in E. subst k'.
    destruct (String.eqb key k) eqn:E'; [|reflexivity].
    apply String.eqb_eq in E'. congruence.
  - rewrite IH. reflexivity.
Qed.

Lemma length_remove key d v :
  Dict.lookup key d = Some v ->
  S (List.length (Dict.remove key d)) = List.length d.
Proof.
  induction d as [|[k' w] d IH]; simpl; [discriminate|].
  destruct (String.eqb k' key); simpl; [reflexivity|].
  intros H. rewrite (IH H). reflexivity.
Qed.

Lemma keys_remove_in key d k :
  In k (Dict.keys (Dict.remove key d)) -> In k (Dict.keys d).
Proof.
  induction d as [|[k' w] d IH]; simpl; [tauto|].
  destruct (String.eqb k' key); simpl; [tauto|].
  intros [H|H]; [left; exact H|right; exact (IH H)].
Qed.

Lemma remove_NoDup key d :
  NoDup (Dict.keys d) -> NoDup (Dict.keys (Dict.remove key d)).
Proof.
  induction d as [|[k' w] d IH]; simpl; intros Hnd; [constructor|].
  inversion Hnd as [|? ? Hnotin Hnd']; subst.
  destruct (String.eqb k' key); simpl; [exact Hnd'|].
  constructor; [|exact (IH Hnd')].
  intros Hin. apply Hnotin. exact (keys_remove_in _ _ _ Hin).
Qed.

(** In [dict(items)] a key has the value of the last item that has it. *)
Lemma lookup_fold_setitem (l : list (string * V)) d k :
  Dict.lookup k (fold_left (fun d kv => Dict.setitem (fst kv) (snd kv) d) l d) =
  match Dict.lookup k (rev l) with
  | Some v => Some v
  | None => Dict.lookup k d
  end.
Proof.
  revert d. induction l as [|[k' v] l IH]; intros d; simpl; [reflexivity|].
  rewrite IH, DictFacts.lookup_app_fresh.
  destruct (Dict.lookup k (rev l)); [reflexivity|].
  simpl. rewrite DictFacts.lookup_setitem.
  destruct (String.eqb k' k); reflexivity.
Qed.

Lemma lookup_of_items (l : list (string * V)) k :
  Dict.lookup k (Dict.of_items l) = Dict.lookup k (rev l).
Proof.
  unfold Dict.of_items. rewrite lookup_fold_setitem.
  destruct (Dict.lookup k (rev l)); reflexivity.
Qed.

End DictMore.
End DictMore.

Lemma data_setitem (g : GroupByResult) (k : string) (v : value) :
  _data (__setitem__ g k v) = Dict.setitem k v (_data g).
Proof. destruct g; reflexivity. Qed.

(** After [self[k] = v], [self[k]] is v, k is contained, and the other
    keys answer as before. *)
Theorem setitem_getitem (g : GroupByResult) (k : string) (v : value) :
  __getitem__ (__setitem__ g k v) k = Ok v /\
  __contains__ (__setitem__ g k v) k = true /\
  forall k' : string,
    k' <> k ->
    __getitem__ (__setitem__ g k v) k' = __getitem__ g k' /\
    __contains__ (__setitem__ g k v) k' = __contains__ g k'.
Proof.
  unfold __getitem__, __contains__, Dict.getitem, Dict.contains.
  rewrite data_setitem. repeat split.
  - rewrite DictFacts.lookup_setitem, String.eqb_refl. reflexivity.
  - rewrite DictFacts.lookup_setitem, String.eqb_refl. reflexivity.
  - rewrite DictFacts.lookup_setitem.
    destruct (String.eqb k k') eqn:E; [|reflexivity].
    apply String.eqb_eq in E. congruence.
  - rewrite DictFacts.lookup_setitem.
    destruct (String.eqb k k') eqn:E; [|reflexivity].
    apply String.eqb_eq in E. congruence.
Qed.

Lemma setitem_getitem_witness :
  __getitem__ (__setitem__ Examples.two_leaves "B" (VInt 7)) "B" = Ok (VInt 7) /\
  __getitem__ (__setitem__ Examples.two_leaves "B" (VInt 7)) "A" =
  __getitem__ Examples.two_leaves "A".
Proof.
  pose proof (setitem_getitem Examples.two_leaves "B" (VInt 7)) as (H1 & _ & H3).
  split; [exact H1|].
  apply (H3 "A"). discriminate.
Defined.

(** [len] after [self[k] = v]: one more when k is new, the same when k
    was there; the result is never empty. *)
Theorem len_setitem (g : GroupByResult) (k : string) (v : value) :
  __len__ (__setitem__ g k v) =
    (if __contains__ g k then __len__ g else __len__ g + 1) /\
  empty (__setitem__ g k v) = false.
Proof.
  unfold __len__, empty, __len__, __contains__, Dict.len.
  rewrite data_setitem, DictMore.length_setitem.
  destruct (Dict.contains k (_data g)) eqn:E.
  - split; [reflexivity|].
    unfold Dict.contains in E. destruct (_data g) as [|e d]; [discriminate|].
    reflexivity.
  - split; [lia|]. apply Z.eqb_neq. lia.
Qed.

(** [del self[k]] on a key that is there (the keys being distinct, as
    they are in a dictionary): k is gone, [len] is one less, the other
    keys answer as before, the cached total and leaf count stay. *)
Theorem delitem_present (g : GroupByResult) (k : string) :
  NoDup (keys g) ->
  __contains__ g k = true ->
  exists g' : GroupByResult,
    __delitem__ g k = Ok g' /\
    __contains__ g' k = false /\
    __getitem__ g' k = Raise (KeyError k) /\
    __len__ g' = __len__ g - 1 /\
    NoDup (keys g') /\
    (forall k' : string, k' <> k -> __getitem__ g' k' = __getitem__ g k') /\
    _total_result g' = _total_result g /\ _meta g' = _meta g.
Proof.
  destruct g as [tn d tr meta].
  unfold keys, __contains__, __getitem__, __delitem__, __len__, Dict.contains,
    Dict.getitem, Dict.delitem, Dict.len. simpl.
  intros Hnd Hc. destruct (Dict.lookup k d) as [v|] eqn:Hv; [|discriminate].
  exists (mkGroupByResult tn (Dict.remove k d) tr meta). simpl.
  rewrite (DictFacts.lookup_remove_same _ k d Hnd).
  repeat split.
  - pose proof (DictMore.length_remove _ k d v Hv). lia.
  - apply DictMore.remove_NoDup. exact Hnd.
  - intros k' Hk'. rewrite (DictMore.lookup_remove_other _ k k' d Hk'). reflexivity.
Qed.

Lemma delitem_present_witness :
  exists g' : GroupByResult,
    __delitem__ Examples.two_leaves "A" = Ok g' /\
    __contains__ g' "A" = false /\ __len__ g' = 1.
Proof.
  destruct (delitem_present Examples.two_leaves "A") as (g' & H1 & H2 & _ & H4 & _).
  - repeat constructor; simpl; intuition discriminate.
  - reflexivity.
  - exists g'. repeat split; [exact H1|exact H2|exact H4].
Defined.

Lemma mutate_NoDup (g g' : GroupByResult) (m : mutation) :
  mutate g m = Ok g' -> NoDup (keys g) -> NoDup (keys g').
Proof.
  destruct g as [tn d tr meta]. destruct m as [key v|key]; unfold keys; simpl.
  - intros H Hnd. injection H as <-. simpl.
    apply DictFacts.setitem_NoDup. exact Hnd.
  - unfold Dict.delitem. destruct (Dict.lookup key d); simpl; [|discriminate].
    intros H Hnd. injection H as <-. simpl.
    apply DictMore.remove_NoDup. exact Hnd.
Qed.

(** [keys()] never lists a key twice: the constructor enters every key
    once, whatever the items are, and assignments and deletions keep it
    so. *)
Theorem keys_distinct (data : items) (total_name : option string)
        (ms : list mutation) (g0 g : GroupByResult) :
  __init__ data total_name = Ok g0 ->
  mutate_all g0 ms = Ok g ->
  NoDup (keys g).
Proof.
  intros Hinit. apply init_fields in Hinit. destruct Hinit as (_ & Hd & _ & _).
  assert (H0 : NoDup (keys g0)).
  { unfold keys. rewrite Hd. apply DictFacts.of_items_NoDup. }
  clear Hd. revert g0 H0. induction ms as [|m ms IH]; intros g0 H0; simpl.
  - intros H. injection H as <-. exact H0.
  - destruct (mutate g0 m) as [g1|e] eqn:Hm; simpl; [|discriminate].
    apply IH. exact (mutate_NoDup _ _ _ Hm H0).
Qed.

Lemma keys_distinct_witness :
  __init__ [("A", VInt 1); ("A", VInt 2); ("B", VInt 3)] None =
    Ok (mkGroupByResult None [("A", VInt 2); ("B", VInt 3)] (VInt 5) None) /\
  NoDup (keys (mkGroupByResult None [("A", VInt 2); ("C", VInt 4)] (VInt 5) None)).
Proof.
  split; [reflexivity|].
  apply (keys_distinct [("A", VInt 1); ("A", VInt 2); ("B", VInt 3)] None
           [SetItem "C" (VInt 4); DelItem "B"]
           (mkGroupByResult None [("A", VInt 2); ("B", VInt 3)] (VInt 5) None));
    reflexivity.
Defined.

Lemma in_setitem (K : string) (v w : value) (k : string) (d : items) :
  In (K, v) (Dict.setitem k w d) ->
  (K = k /\ v = w) \/ In (K, v) d.
Proof.
  induction d as [|[k' w'] d IH]; simpl.
  - intros [H|[]]. injection H as <- <-. left. auto.
  - destruct (String.eqb k' k) eqn:E; simpl.
    + apply String.eqb_eq in E. subst k'.
      intros [H|H]; [injection H as <- <-; left; auto|right; right; exact H].
    + intros [H|H]; [right; left; exact H|].
      destruct (IH H) as [H'|H']; [left; exact H'|right; right; exact H'].
Qed.

Lemma in_of_items (K : string) (v : value) (data : items) :
  In (K, v) (Dict.of_items data) -> In (K, v) data.
Proof.
  unfold Dict.of_items.
  assert (G : forall (l d : items),
             In (K, v) (fold_left (fun d kv => Dict.setitem (fst kv) (snd kv) d) l d) ->
             In (K, v) d \/ In (K, v) l).
  { induction l as [|[k w] l IH]; intros d H; simpl in *; [left; exact H|].
    destruct (IH _ H) as [H'|H']; [|right; right; exact H'].
    destruct (in_setitem _ _ _ _ _ H') as [[-> ->]|H'']; [right; left; reflexivity|].
    left. exact H''. }
  intros H. destruct (G data [] H) as [[]|H']. exact H'.
Qed.

Lemma lookup_rev_NoDup (K : string) (v : value) (data : items) :
  NoDup (Dict.keys data) -> In (K, v) data -> Dict.lookup K (rev data) = Some v.
Proof.
  intros Hnd. induction data as [|[k w] data IH]; intros Hin; [destruct Hin|].
  simpl in Hnd. inversion Hnd as [|? ? Hnotin Hnd']; subst.
  simpl. rewrite DictFacts.lookup_app_fresh. destruct Hin as [H|H].
  - injection H as -> ->.
    destruct (Dict.lookup K (rev data)) as [w'|] eqn:E.
    + exfalso. apply Hnotin. apply lookup_In in E. apply in_rev in E.
      unfold Dict.keys. apply in_map_iff. exists (K, w'). auto.
    + simpl. rewrite String.eqb_refl. reflexivity.
  - rewrite (IH Hnd' H). reflexivity.
Qed.

(** The constructor enters the items one after the other: a key has the
    value of the last item that has it, and every item of the object is
    one of the data.  Data with distinct keys (a dictionary) are all
    kept: the same items, as many. *)
Theorem init_last_item_wins (data : items) (total_name : option string)
        (g : GroupByResult) :
  __init__ data total_name = Ok g ->
  (forall k : string,
      __getitem__ g k =
      match Dict.lookup k (rev data) with
      | Some v => Ok v
      | None => Raise (KeyError k)
      end) /\
  (forall (k : string) (v : value), In (k, v) (iteritems g) -> In (k, v) data) /\
  (NoDup (Dict.keys data) ->
   __len__ g = Dict.len data /\
   forall (k : string) (v : value), In (k, v) data -> In (k, v) (iteritems g)).
Proof.
  intros Hinit. apply init_fields in Hinit. destruct Hinit as (_ & Hd & _ & _).
  split; [|split].
  - intros k. unfold __getitem__, Dict.getitem.
    rewrite Hd, DictMore.lookup_of_items. reflexivity.
  - intros k v. unfold iteritems. rewrite Hd. apply in_of_items.
  - intros Hnd. split.
    + unfold __len__. rewrite Hd, (DictFacts.of_items_copy _ _ Hnd). reflexivity.
    + intros k v Hin. unfold iteritems. rewrite Hd. apply lookup_In.
      rewrite DictMore.lookup_of_items. exact (lookup_rev_NoDup k v data Hnd Hin).
Qed.

Lemma init_last_item_wins_witness :
  let g := mkGroupByResult None [("A", VInt 2); ("B", VInt 3)] (VInt 5) None in
  __getitem__ g "A" = Ok (VInt 2) /\ __getitem__ g "Z" = Raise (KeyError "Z").
Proof.
  pose proof (init_last_item_wins [("A", VInt 1); ("A", VInt 2); ("B", VInt 3)] None
                (mkGroupByResult None [("A", VInt 2); ("B", VInt 3)] (VInt 5) None)
                eq_refl) as [H _].
  split; [exact (H "A")|exact (H "Z")].
Defined.

(** [setdefault(k, d)] returns what [self[k]] is afterwards.  A key that
    is there keeps its value and the object is unchanged; a new key gets
    d, as by [self[k] = d].  The cached total is not refreshed. *)
Theorem setdefault_getitem (g : GroupByResult) (k : string) (d : value) :
  __getitem__ (snd (setdefault g k d)) k = Ok (fst (setdefault g k d)) /\
  (forall v : value,
      __getitem__ g k = Ok v -> setdefault g k d = (v, g)) /\
  (__contains__ g k = false -> setdefault g k d = (d, __setitem__ g k d)) /\
  _total_result (snd (setdefault g k d)) = _total_result g.
Proof.
  unfold setdefault, __getitem__, __contains__, Dict.getitem, Dict.contains.
  destruct (Dict.lookup k (_data g)) as [w|] eqn:Hw; simpl.
  - rewrite Hw. repeat split; try discriminate.
    intros v Hv. injection Hv as <-. reflexivity.
  - rewrite data_setitem, DictFacts.lookup_setitem, String.eqb_refl.
    repeat split; try discriminate. destruct g; reflexivity.
Qed.

Lemma setdefault_getitem_witness :
  setdefault Examples.two_leaves "A" (VInt 0) = (VInt 1, Examples.two_leaves) /\
  setdefault Examples.two_leaves "C" (VInt 0) =
    (VInt 0, __setitem__ Examples.two_leaves "C" (VInt 0)).
Proof.
  pose proof (setdefault_getitem Examples.two_leaves "A" (VInt 0)) as (_ & H2 & _).
  pose proof (setdefault_getitem Examples.two_leaves "C" (VInt 0)) as (_ & _ & H3 & _).
  split; [apply H2; reflexivity|apply H3; reflexivity].
Defined.

(** ** The total *)


Lemma leaf_values_entries_sum tn data tr meta :
  sum (leaf_values (mkGroupByResult tn data tr meta)) = entries_sum data.
Proof.
  unfold entries_sum. simpl.
  induction data as [|[k v] data IH]; simpl; [reflexivity|].
  rewrite sum_app, IH. destruct v; simpl; lia.
Qed.

Lemma no_total_name_forallb data tr meta :
  no_total_name (mkGroupByResult None data tr meta) =
  forallb (fun kv : string * value => no_total_name_value (snd kv)) data.
Proof.
  simpl. induction data as [|[k v] data IH]; simpl; [reflexivity|].
  rewrite IH. destruct v; reflexivity.
Qed.

Lemma no_total_name_entries tn data tr meta :
  no_total_name (mkGroupByResult tn data tr meta) = true ->
  tn = None /\
  forallb (fun kv : string * value => no_total_name_value (snd kv)) data = true.
Proof.
  destruct tn; [discriminate|]. rewrite no_total_name_forallb. auto.
Qed.

Lemma entries_no_total_name data tr meta :
  forallb (fun kv : string * value => no_total_name_value (snd kv)) data = true ->
  no_total_name (mkGroupByResult None data tr meta) = true.
Proof. rewrite no_total_name_forallb. auto. Qed.

(** The loop when the nested totals are the sums of the nested integer
    leaves: it never fails, and adds the integers and the nested sums. *)
Lemma sum_subtotals_no_total_name (entries : items) :
  Forall (on_nested (fun sub => no_total_name sub = true ->
                                _get_total sub = Ok (VInt (sum (leaf_values sub)))))
         entries ->
  forall acc,
    forallb (fun kv : string * value => no_total_name_value (snd kv)) entries = true ->
    sum_subtotals _get_total entries (VInt acc) =
    Ok (VInt (acc + entries_sum entries)).
Proof.
  unfold entries_sum.
  induction 1 as [|[k v] entries Hv Hrest IH]; intros acc Ht.
  - simpl. rewrite Z.add_0_r. reflexivity.
  - simpl in Ht. apply andb_true_iff in Ht. destruct Ht as [Hkv Ht].
    destruct v as [z|f|s| |sub].
    + simpl. rewrite (IH _ Ht). do 2 f_equal. lia.
    + simpl. rewrite (IH _ Ht). do 2 f_equal.
    + simpl. rewrite (IH _ Ht). do 2 f_equal.
    + simpl. rewrite (IH _ Ht). do 2 f_equal.
    + unfold on_nested in Hv. simpl in Hv, Hkv.
      change (sum_subtotals _get_total ((k, VGroup sub) :: entries) (VInt acc))
        with (sub_total <- _get_total sub ;;
              total' <- py_add (VInt acc) sub_total ;;
              sum_subtotals _get_total entries total').
      rewrite (Hv Hkv). simpl. rewrite (IH _ Ht). do 2 f_equal. lia.
Qed.

Lemma get_total_without_total_name (g : GroupByResult) :
  no_total_name g = true -> total g = Ok (VInt (sum (leaf_values g))).
Proof.
  unfold total.
  induction g as [tn data tr meta IH] using GroupByResult_nested_ind.
  intros Ht. rewrite leaf_values_entries_sum.
  apply no_total_name_entries in Ht. destruct Ht as [-> Ht].
  destruct data as [|e data]; [reflexivity|].
  change (_get_total (mkGroupByResult None (e :: data) tr meta))
    with (sum_subtotals _get_total (e :: data) (VInt 0)).
  rewrite (sum_subtotals_no_total_name _ IH 0 Ht). reflexivity.
Qed.

(** When no level has a [_total_name], [total] never raises, whatever the
    entries hold: it is the sum of the integers met depth first; floats,
    strings and [None] count for nothing. *)
Theorem total_without_total_name (g : GroupByResult) :
  no_total_name g = true ->
  total g = Ok (VInt (sum (leaf_values g))) /\ raises (total g) = false.
Proof.
  intros H. rewrite (get_total_without_total_name g H). split; reflexivity.
Qed.

Lemma total_without_total_name_witness :
  let g := mkGroupByResult None
             [("A", VInt 1); ("F", VFloat 2.5); ("S", VStr "x");
              ("X", VGroup Examples.two_leaves); ("N", VNone)] (VInt 4) None in
  total g = Ok (VInt 4).
Proof.
  apply (proj1 (total_without_total_name
                  (mkGroupByResult None
                     [("A", VInt 1); ("F", VFloat 2.5); ("S", VStr "x");
                      ("X", VGroup Examples.two_leaves); ("N", VNone)] (VInt 4) None)
                  eq_refl)).
Defined.

Lemma entries_sum_setitem (k : string) (v : value) (d : items) :
  entries_sum (Dict.setitem k v d) =
  entries_sum d
  - match Dict.lookup k d with Some old => entry_sum old | None => 0 end
  + entry_sum v.
Proof.
  unfold entries_sum. induction d as [|[k' w] d IH]; simpl; [lia|].
  destruct (String.eqb k' k); simpl; [lia|]. rewrite IH. lia.
Qed.

Lemma entries_sum_remove (k : string) (d : items) :
  entries_sum (Dict.remove k d) =
  entries_sum d
  - match Dict.lookup k d with Some old => entry_sum old | None => 0 end.
Proof.
  unfold entries_sum. induction d as [|[k' w] d IH]; simpl; [lia|].
  destruct (String.eqb k' k); simpl; [lia|]. rewrite IH. lia.
Qed.

Lemma forallb_setitem (p : value -> bool) (k : string) (v : value) (d : items) :
  forallb (fun kv : string * value => p (snd kv)) d = true ->
  p v = true ->
  forallb (fun kv : string * value => p (snd kv)) (Dict.setitem k v d) = true.
Proof.
  intros Hd Hv. induction d as [|[k' w] d IH]; simpl.
  - rewrite Hv. reflexivity.
  - simpl in Hd. apply andb_true_iff in Hd. destruct Hd as [Hw Hd].
    destruct (String.eqb k' k); simpl.
    + rewrite Hv, Hd. reflexivity.
    + rewrite Hw, (IH Hd). reflexivity.
Qed.

Lemma forallb_remove (p : value -> bool) (k : string) (d : items) :
  forallb (fun kv : string * value => p (snd kv)) d = true ->
  forallb (fun kv : string * value => p (snd kv)) (Dict.remove k d) = true.
Proof.
  intros Hd. induction d as [|[k' w] d IH]; simpl; [reflexivity|].
  simpl in Hd. apply andb_true_iff in Hd. destruct Hd as [Hw Hd].
  destruct (String.eqb k' k); simpl; [exact Hd|].
  rewrite Hw, (IH Hd). reflexivity.
Qed.

(** [total] follows the entries: when no level has a [_total_name], the
    total after [self[k] = v] is the total before, less what the old
    entry under k counted for, plus what v counts for; after [del self[k]]
    it is the total before less what the entry counted for. *)
Theorem total_follows_mutation (g : GroupByResult) (k : string) :
  no_total_name g = true ->
  exists t : Z,
    total g = Ok (VInt t) /\
    (forall v : value,
        no_total_name_value v = true ->
        total (__setitem__ g k v) =
        Ok (VInt (t - match Dict.lookup k (_data g) with
                      | Some old => entry_sum old
                      | None => 0
                      end + entry_sum v))) /\
    (forall g' : GroupByResult,
        __delitem__ g k = Ok g' ->
        total g' =
        Ok (VInt (t - match Dict.lookup k (_data g) with
                      | Some old => entry_sum old
                      | None => 0
                      end))).
Proof.
  intros Hg. exists (sum (leaf_values g)).
  split; [exact (get_total_without_total_name g Hg)|].
  destruct g as [tn d tr meta].
  pose proof (no_total_name_entries _ _ _ _ Hg) as [-> Hd]. cbn [_data].
  split.
  - intros v Hv.
    change (__setitem__ (mkGroupByResult None d tr meta) k v)
      with (mkGroupByResult None (Dict.setitem k v d) tr meta).
    rewrite (get_total_without_total_name _
               (entries_no_total_name _ tr meta (forallb_setitem _ k v d Hd Hv))).
    rewrite !leaf_values_entries_sum, entries_sum_setitem. reflexivity.
  - intros g'. unfold __delitem__, Dict.delitem.
    destruct (Dict.lookup k d) as [old|] eqn:Hold; unfold bind; [|discriminate].
    intros H. injection H as <-.
    rewrite (get_total_without_total_name _
               (entries_no_total_name _ tr meta (forallb_remove _ k d Hd))).
    rewrite !leaf_values_entries_sum, entries_sum_remove, Hold. reflexivity.
Qed.

Lemma total_follows_mutation_witness :
  total (__setitem__ Examples.nested "Y" (VInt 7)) = Ok (VInt (8 - 5 + 7)) /\
  total (__setitem__ Examples.nested "Z" (VGroup Examples.two_leaves)) =
    Ok (VInt (8 - 0 + 3)).
Proof.
  destruct (total_follows_mutation Examples.nested "Y" eq_refl) as (t & Ht & Hset & _).
  destruct (total_follows_mutation Examples.nested "Z" eq_refl) as (t' & Ht' & Hset' & _).
  assert (E : t = 8) by (vm_compute in Ht; congruence).
  assert (E' : t' = 8) by (vm_compute in Ht'; congruence).
  subst t t'. split.
  - exact (Hset (VInt 7) eq_refl).
  - exact (Hset' (VGroup Examples.two_leaves) eq_refl).
Defined.

(** With [_total_name] set to n, the total after [self[k] = v] is v when
    k is n, and otherwise what [self[n]] was before: the other entries do
    not count, and on a result that was empty the total turns from 0 into
    a KeyError until n is assigned. *)
Theorem total_with_total_name_after_set
        (g : GroupByResult) (n k : string) (v : value) :
  _total_name g = Some n ->
  total (__setitem__ g k v) =
    (if String.eqb k n then Ok v else __getitem__ g n) /\
  (empty g = true -> k <> n ->
   total g = Ok (VInt 0) /\ total (__setitem__ g k v) = Raise (KeyError n)).
Proof.
  intros Hn. destruct g as [tn d tr meta]. simpl in Hn. subst tn.
  assert (E : total (__setitem__ (mkGroupByResult (Some n) d tr meta) k v) =
              (if String.eqb k n then Ok v
               else __getitem__ (mkGroupByResult (Some n) d tr meta) n)).
  { unfold total.
    change (__setitem__ (mkGroupByResult (Some n) d tr meta) k v)
      with (mkGroupByResult (Some n) (Dict.setitem k v d) tr meta).
    assert (G : forall d' : items,
               d' <> [] ->
               _get_total (mkGroupByResult (Some n) d' tr meta) = Dict.getitem n d').
    { intros [|e d'] Hd'; [contradiction|reflexivity]. }
    rewrite G by apply DictFacts.setitem_not_nil.
    unfold __getitem__, Dict.getitem. cbn [_data].
    rewrite DictFacts.lookup_setitem.
    destruct (String.eqb k n); reflexivity. }
  split; [exact E|].
  intros He Hk. apply empty_data in He. simpl in He. subst d.
  split; [reflexivity|].
  rewrite E. apply String.eqb_neq in Hk. rewrite Hk. reflexivity.
Qed.

Lemma total_with_total_name_after_set_witness :
  let g := mkGroupByResult (Some "ALL") [] (VInt 0) None in
  total g = Ok (VInt 0) /\
  total (__setitem__ g "A" (VInt 1)) = Raise (KeyError "ALL") /\
  total (__setitem__ g "ALL" (VInt 9)) = Ok (VInt 9).
Proof.
  pose proof (total_with_total_name_after_set
                (mkGroupByResult (Some "ALL") [] (VInt 0) None) "ALL" "A" (VInt 1)
                eq_refl) as [_ H].
  pose proof (total_with_total_name_after_set
                (mkGroupByResult (Some "ALL") [] (VInt 0) None) "ALL" "ALL" (VInt 9)
                eq_refl) as [H' _].
  destruct (H eq_refl ltac:(discriminate)) as [H1 H2].
  split; [exact H1|]. split; [exact H2|exact H'].
Defined.

(** ** Probing *)

Lemma endswith_inv (s suffix : string) :
  PyStr.endswith s suffix = true -> exists p : string, s = (p ++ suffix)%string.
Proof.
  induction s as [|c s IH].
  - simpl. destruct suffix; [|discriminate]. intros _. exists EmptyString. reflexivity.
  - change (PyStr.endswith (String c s) suffix)
      with (if String.eqb (String c s) suffix then true else PyStr.endswith s suffix).
    destruct (String.eqb (String c s) suffix) eqn:E.
    + apply String.eqb_eq in E. intros _. exists EmptyString. exact E.
    + intros H. destruct (IH H) as [p ->]. exists (String c p). reflexivity.
Qed.

Lemma float_of_int_raises (z : Z) (e : exn) :
  PyNum.float_of_int z = Raise e -> e = OverflowError.
Proof.
  unfold PyNum.float_of_int.
  destruct (binary_normalize prec emax z 0 false); intros H;
    try discriminate; injection H as <-; reflexivity.
Qed.

(** What [_get_percent] can raise. *)
Lemma get_percent_raises (g : GroupByResult) (key : string) (e : exn) :
  _get_percent g key = Raise e ->
  (e = KeyError key /\ __contains__ g key = false) \/
  e = TypeError \/ e = OverflowError.
Proof.
  unfold _get_percent, __getitem__, __contains__, Dict.getitem, Dict.contains.
  destruct (Dict.lookup key (_data g)) as [subtotal|]; simpl.
  2: { intros H. injection H as <-. left. auto. }
  destruct (py_eq_zero (_total_result g)) eqn:Hz; [discriminate|].
  unfold py_mul_float.
  destruct subtotal as [z|f|s| |sub]; simpl;
    try (intros H; injection H as <-; right; left; reflexivity).
  - destruct (PyNum.float_of_int z) as [fz|e'] eqn:Hfz; simpl.
    + unfold py_float_div. unfold py_eq_zero in Hz.
      destruct (_total_result g) as [t|ft|s| |sub]; simpl;
        try (intros H; injection H as <-; right; left; reflexivity).
      * rewrite Hz. destruct (PyNum.float_of_int t) as [ft|e''] eqn:Hft; simpl;
          [discriminate|].
        intros H. injection H as <-. right. right.
        exact (float_of_int_raises _ _ Hft).
      * rewrite Hz. discriminate.
    + intros H. injection H as <-. right. right.
      exact (float_of_int_raises _ _ Hfz).
  - unfold py_float_div. unfold py_eq_zero in Hz.
    destruct (_total_result g) as [t|ft|s| |sub]; simpl;
      try (intros H; injection H as <-; right; left; reflexivity).
    + rewrite Hz. destruct (PyNum.float_of_int t) as [ft|e''] eqn:Hft; simpl;
        [discriminate|].
      intros H. injection H as <-. right. right.
      exact (float_of_int_raises _ _ Hft).
    + rewrite Hz. discriminate.
Qed.

(** A probe raises ValueError exactly when the name ends in [_percent]
    and has another underscore before that suffix. *)
Theorem getattr_ValueError_iff (g : GroupByResult) (name : string) :
  __getattr__ g name = Raise ValueError <->
  exists prefix : string,
    name = (prefix ++ "_percent")%string /\ PyStr.has_char "_" prefix = true.
Proof.
  split.
  - intros H. unfold __getattr__ in H.
    destruct (PyStr.endswith name "_percent") eqn:He; [|discriminate].
    destruct (endswith_inv _ _ He) as [prefix ->]. exists prefix.
    split; [reflexivity|].
    destruct (PyStr.has_char "_" prefix) eqn:Hp; [reflexivity|exfalso].
    rewrite split_percent, (PyStrFacts.split_no_sep _ _ Hp) in H. simpl in H.
    destruct (__contains__ g prefix) eqn:Hc; [|discriminate].
    apply get_percent_raises in H.
    destruct H as [[H _]|[H|H]]; discriminate.
  - intros (prefix & -> & Hp). unfold __getattr__.
    rewrite endswith_percent, split_percent.
    destruct (PyStrFacts.split_with_sep _ _ Hp) as (p & q & r & ->).
    simpl. destruct r; reflexivity.
Qed.

Lemma getattr_ValueError_iff_witness :
  PyStr.has_char "_" "A_B" = true /\
  __getattr__ Examples.two_leaves "A_B_percent" = Raise ValueError.
Proof.
  split; [reflexivity|].
  apply (proj2 (getattr_ValueError_iff Examples.two_leaves "A_B_percent")).
  exists "A_B". split; reflexivity.
Defined.

(** A probe never raises KeyError or ZeroDivisionError: what it can raise
    is ValueError (the name), TypeError (an entry or a cached total that is
    not a number) or OverflowError (an integer too large for a float). *)
Theorem getattr_raises_only (g : GroupByResult) (name : string) (e : exn) :
  __getattr__ g name = Raise e ->
  e = ValueError \/ e = TypeError \/ e = OverflowError.
Proof.
  unfold __getattr__.
  destruct (PyStr.endswith name "_percent"); [|discriminate].
  destruct (PyStr.split "_" name) as [|key [|identifier [|x rest]]];
    try (intros H; injection H as <-; left; reflexivity).
  destruct (__contains__ g key) eqn:Hc; [|discriminate].
  intros H. apply get_percent_raises in H.
  destruct H as [[_ H]|H]; [congruence|right; exact H].
Qed.

Lemma getattr_raises_only_witness :
  let g := mkGroupByResult None [("A", VStr "abc")] (VInt 3) None in
  __getattr__ g "A_percent" = Raise TypeError /\
  (TypeError = ValueError \/ TypeError = TypeError \/ TypeError = OverflowError).
Proof.
  split; [reflexivity|].
  apply (getattr_raises_only
           (mkGroupByResult None [("A", VStr "abc")] (VInt 3) None) "A_percent" TypeError).
  reflexivity.
Defined.

(** An object built from no data keeps 0 as its cached total, whatever is
    assigned afterwards: the percentage of every key it holds (a key
    without underscore) is 0.0, whatever the entry is. *)
Theorem percent_of_object_built_empty
        (total_name : option string) (ms : list mutation)
        (g0 g : GroupByResult) (K : string) :
  __init__ [] total_name = Ok g0 ->
  mutate_all g0 ms = Ok g ->
  PyStr.has_char "_" K = false ->
  __contains__ g K = true ->
  __getattr__ g (K ++ "_percent")%string = Ok (VFloat 0).
Proof.
  intros Hinit Hms HK Hc.
  assert (H0 : _total_result g0 = VInt 0).
  { unfold __init__ in Hinit. simpl in Hinit. injection Hinit as <-. reflexivity. }
  apply mutate_all_fields in Hms. destruct Hms as (_ & Htr & _).
  rewrite H0 in Htr.
  rewrite (getattr_percent_of_present g K HK Hc).
  unfold _get_percent, __getitem__, Dict.getitem.
  unfold __contains__, Dict.contains in Hc.
  destruct (Dict.lookup K (_data g)); [|discriminate].
  simpl. rewrite Htr. reflexivity.
Qed.

Lemma percent_of_object_built_empty_witness :
  __getattr__ (mkGroupByResult None [("A", VInt 3); ("B", VInt 1)] (VInt 0) None)
    "A_percent" = Ok (VFloat 0).
Proof.
  apply (percent_of_object_built_empty None
           [SetItem "A" (VInt 3); SetItem "B" (VInt 1)]
           (mkGroupByResult None [] (VInt 0) None)
           (mkGroupByResult None [("A", VInt 3); ("B", VInt 1)] (VInt 0) None) "A");
    reflexivity.
Defined.

(** ** Counting leaf values, further *)

Section CountLoopObjects.

Variable count_of : GroupByResult -> Z * GroupByResult.
Variable value_in_row : bool.


Lemma count_leaves_cons_snd (k : string) (v : value) (rest : items) (count : Z) :
  snd (count_leaves count_of value_in_row ((k, v) :: rest) count) =
  entry_after count_of (k, v)
  :: snd (count_leaves count_of value_in_row rest
            (next_count count_of value_in_row count v)).
Proof.
  simpl. unfold entry_after.
  destruct v as [z|f|s| |sub]; simpl;
    try (destruct (count_leaves count_of value_in_row rest
                     (if value_in_row then 1 else count + 1)); reflexivity).
  destruct (count_of sub) as [c sub']. simpl.
  destruct (count_leaves count_of value_in_row rest (count + c)). reflexivity.
Qed.

(** The loop changes nothing but the nested objects. *)
Lemma count_leaves_snd (entries : items) (count : Z) :
  snd (count_leaves count_of value_in_row entries count) = map (entry_after count_of) entries.
Proof.
  revert count. induction entries as [|[k v] entries IH]; intros count.
  - reflexivity.
  - rewrite count_leaves_cons_snd, IH. reflexivity.
Qed.

End CountLoopObjects.

Lemma forget_counts_data tn data tr meta :
  forget_counts (mkGroupByResult tn data tr meta) =
  mkGroupByResult tn
    (map (fun kv : string * value =>
            match snd kv with
            | VGroup sub => (fst kv, VGroup (forget_counts sub))
            | _ => kv
            end) data) tr None.
Proof.
  simpl. f_equal. apply map_ext. intros [k v]. destruct v; reflexivity.
Qed.

Lemma leaf_values_count_snd (value_in_row refresh : bool) (g : GroupByResult) :
  snd (leaf_values_count value_in_row refresh g) = g \/
  snd (leaf_values_count value_in_row refresh g) =
  mkGroupByResult (_total_name g)
    (map (entry_after (leaf_values_count value_in_row false)) (_data g))
    (_total_result g)
    (Some (fst (leaf_values_count value_in_row refresh g))).
Proof.
  destruct g as [tn data tr meta]. simpl.
  pose proof (count_leaves_snd (leaf_values_count value_in_row false)
                value_in_row data 0) as Hs.
  destruct refresh, meta as [c|]; simpl; try (left; reflexivity);
    destruct (count_leaves (leaf_values_count value_in_row false)
                value_in_row data 0) as [count data'];
    simpl in *; subst data'; right; reflexivity.
Qed.

(** Counting changes nothing but cached counts. *)
Lemma forget_counts_leaf_values_count (value_in_row : bool) (g : GroupByResult) :
  forall refresh : bool,
    forget_counts (snd (leaf_values_count value_in_row refresh g)) = forget_counts g.
Proof.
  induction g as [tn data tr meta IH] using GroupByResult_nested_ind.
  intros refresh.
  destruct (leaf_values_count_snd value_in_row refresh
              (mkGroupByResult tn data tr meta)) as [-> | ->]; [reflexivity|].
  cbn [_total_name _data _total_result].
  rewrite !forget_counts_data. f_equal.
  rewrite map_map.
  induction IH as [|[k v] data Hv Hrest IHdata]; [reflexivity|].
  simpl. rewrite IHdata. f_equal.
  unfold entry_after. destruct v as [z|f|s| |sub]; try reflexivity.
  simpl. unfold on_nested in Hv. simpl in Hv. rewrite Hv. reflexivity.
Qed.

Lemma keys_forget_counts (g : GroupByResult) : keys (forget_counts g) = keys g.
Proof.
  destruct g as [tn data tr meta]. rewrite forget_counts_data.
  unfold keys, Dict.keys. simpl. rewrite map_map.
  apply map_ext. intros [k v]. destruct v; reflexivity.
Qed.

Lemma leaf_values_forget_counts (g : GroupByResult) :
  leaf_values (forget_counts g) = leaf_values g.
Proof.
  induction g as [tn data tr meta IH] using GroupByResult_nested_ind.
  rewrite forget_counts_data. simpl.
  induction IH as [|[k v] data Hv Hrest IHdata]; [reflexivity|].
  simpl. rewrite IHdata. f_equal.
  destruct v as [z|f|s| |sub]; try reflexivity.
  unfold on_nested in Hv. simpl in Hv. simpl. exact Hv.
Qed.

Lemma no_total_name_forget_counts (g : GroupByResult) :
  no_total_name (forget_counts g) = no_total_name g.
Proof.
  induction g as [tn data tr meta IH] using GroupByResult_nested_ind.
  rewrite forget_counts_data. simpl. destruct tn; [reflexivity|].
  induction IH as [|[k v] data Hv Hrest IHdata]; [reflexivity|].
  simpl. rewrite IHdata. f_equal.
  destruct v as [z|f|s| |sub]; try reflexivity.
  unfold on_nested in Hv. simpl in Hv. simpl. exact Hv.
Qed.

(** [leaf_values_count] changes cached counts and nothing else: the tree
    without its caches is the same, so are the keys, the cached total and,
    when no level has a [_total_name], the total. *)
Theorem leaf_values_count_keeps_entries
        (value_in_row refresh : bool) (g : GroupByResult) :
  let g' := snd (leaf_values_count value_in_row refresh g) in
  forget_counts g' = forget_counts g /\
  keys g' = keys g /\
  _total_result g' = _total_result g /\
  (no_total_name g = true -> total g' = total g).
Proof.
  pose proof (forget_counts_leaf_values_count value_in_row g refresh) as Hf.
  cbv zeta. split; [exact Hf|]. split; [|split].
  - rewrite <- keys_forget_counts, Hf. apply keys_forget_counts.
  - destruct (leaf_values_count_snd value_in_row refresh g) as [-> | ->];
      reflexivity.
  - intros Hg.
    assert (Hg' : no_total_name (snd (leaf_values_count value_in_row refresh g)) = true).
    { rewrite <- no_total_name_forget_counts, Hf, no_total_name_forget_counts.
      exact Hg. }
    rewrite (get_total_without_total_name _ Hg),
      (get_total_without_total_name _ Hg').
    rewrite <- (leaf_values_forget_counts (snd _)), Hf, leaf_values_forget_counts.
    reflexivity.
Qed.

Lemma leaf_values_count_keeps_entries_witness :
  total (snd (leaf_values_count true false Examples.nested)) = total Examples.nested.
Proof.
  apply (proj2 (proj2 (proj2
           (leaf_values_count_keeps_entries true false Examples.nested)))).
  reflexivity.
Defined.

Lemma fresh_entries tn data tr meta :
  fresh (mkGroupByResult tn data tr meta) = true ->
  meta = None /\
  forallb (fun kv : string * value =>
             match snd kv with VGroup sub => fresh sub | _ => true end) data = true.
Proof.
  destruct meta; [discriminate|]. intros H. split; [reflexivity|].
  assert (E : fresh (mkGroupByResult tn data tr None) =
              forallb (fun kv : string * value =>
                         match snd kv with VGroup sub => fresh sub | _ => true end)
                      data).
  { simpl. clear H. induction data as [|[k v] data IH]; simpl; [reflexivity|].
    rewrite IH. reflexivity. }
  rewrite <- E. exact H.
Qed.

Lemma plain_values_cons tn k v data tr meta :
  plain_values (mkGroupByResult tn ((k, v) :: data) tr meta) =
  match v with VGroup sub => plain_values sub | _ => [v] end
  ++ plain_values (mkGroupByResult tn data tr meta).
Proof. reflexivity. Qed.

(** On a tree without cached counts, counting one by one gives the number
    of values that are not nested results, at all depths; counting with
    [value_in_row] gives at least 0 and at most that number. *)
Theorem leaf_values_count_fresh (g : GroupByResult) :
  fresh g = true ->
  forall refresh : bool,
    fst (leaf_values_count false refresh g) = Z.of_nat (List.length (plain_values g)) /\
    0 <= fst (leaf_values_count true refresh g)
      <= fst (leaf_values_count false refresh g).
Proof.
  induction g as [tn data tr meta IH] using GroupByResult_nested_ind.
  intros Hf refresh. apply fresh_entries in Hf. destruct Hf as [-> Hf].
  rewrite !leaf_values_count_computes by (right; reflexivity).
  cbn [_data].
  assert (G : forall c1 c2 : Z,
             0 <= c1 <= c2 ->
             fst (count_leaves (leaf_values_count false false) false data c2) =
               c2 + Z.of_nat (List.length
                                (plain_values (mkGroupByResult tn data tr None))) /\
             0 <= fst (count_leaves (leaf_values_count true false) true data c1)
               <= fst (count_leaves (leaf_values_count false false) false data c2)).
  { induction IH as [|[k v] data Hv Hrest IHdata]; intros c1 c2 Hc.
    - simpl. lia.
    - simpl in Hf. apply andb_true_iff in Hf. destruct Hf as [Hfv Hf].
      rewrite !count_leaves_cons, plain_values_cons, length_app.
      destruct v as [z|f|s| |sub];
        try (destruct (IHdata Hf 1 (c2 + 1) ltac:(lia)) as [E B];
             cbn [next_count]; rewrite E in *; cbn [List.length]; lia).
      unfold on_nested in Hv. simpl in Hv.
      destruct (Hv Hfv false) as [Es Bs].
      cbn [next_count].
      destruct (IHdata Hf (c1 + fst (leaf_values_count true false sub))
                  (c2 + fst (leaf_values_count false false sub)) ltac:(lia)) as [E B].
      rewrite E in *. rewrite Es. lia. }
  destruct (G 0 0 ltac:(lia)) as [E B]. split; [rewrite E; lia|exact B].
Qed.

Lemma leaf_values_count_fresh_witness :
  fst (leaf_values_count false false Examples.nested) = 3 /\
  0 <= fst (leaf_values_count true false Examples.nested) <= 3.
Proof.
  destruct (leaf_values_count_fresh Examples.nested eq_refl false) as [E B].
  split; [exact E|]. rewrite E in B. exact B.
Defined.

Lemma leaf_values_count_again (value_in_row : bool) (sub : GroupByResult) :
  leaf_values_count value_in_row false
    (snd (leaf_values_count value_in_row false sub)) =
  leaf_values_count value_in_row false sub.
Proof.
  rewrite (leaf_values_count_cached value_in_row _ _
             (leaf_values_count_caches value_in_row false sub)).
  destruct (leaf_values_count value_in_row false sub); reflexivity.
Qed.

Lemma count_leaves_again (value_in_row : bool) (entries : items) (count : Z) :
  count_leaves (leaf_values_count value_in_row false) value_in_row
    (snd (count_leaves (leaf_values_count value_in_row false) value_in_row
            entries count)) count =
  count_leaves (leaf_values_count value_in_row false) value_in_row entries count.
Proof.
  revert count. induction entries as [|[k v] entries IH]; intros count;
    [reflexivity|].
  destruct v as [z|f|s| |sub]; simpl.
  1-4: specialize (IH (if value_in_row then 1 else count + 1));
    destruct (count_leaves _ _ entries (if value_in_row then 1 else count + 1))
      as [c' rest'] eqn:E; simpl in *; rewrite IH; reflexivity.
  pose proof (leaf_values_count_again value_in_row sub) as Hsub.
  destruct (leaf_values_count value_in_row false sub) as [c sub'] eqn:Es.
  simpl in Hsub.
  specialize (IH (count + c)).
  destruct (count_leaves _ _ entries (count + c)) as [c' rest'] eqn:E.
  simpl in *. rewrite Hsub, IH. reflexivity.
Qed.

(** A call that computes, made again with [refresh] and the same
    [value_in_row], returns the same count and leaves the object as the
    first call left it. *)
Theorem leaf_values_count_refresh_again
        (value_in_row refresh : bool) (g : GroupByResult) :
  refresh = true \/ _meta g = None ->
  leaf_values_count value_in_row true
    (snd (leaf_values_count value_in_row refresh g)) =
  leaf_values_count value_in_row refresh g.
Proof.
  intros H. destruct g as [tn data tr meta].
  assert (E : leaf_values_count value_in_row refresh
                (mkGroupByResult tn data tr meta) =
              let '(count, data') :=
                count_leaves (leaf_values_count value_in_row false)
                  value_in_row data 0 in
              (count, mkGroupByResult tn data' tr (Some count))).
  { simpl in H. destruct H as [-> | ->]; simpl.
    - destruct meta; reflexivity.
    - destruct refresh; reflexivity. }
  rewrite E.
  pose proof (count_leaves_again value_in_row data 0) as Ha.
  destruct (count_leaves (leaf_values_count value_in_row false)
              value_in_row data 0) as [count data'].
  simpl in Ha. cbn [snd].
  change (leaf_values_count value_in_row true
            (mkGroupByResult tn data' tr (Some count)))
    with (let '(count0, data'') :=
            count_leaves (leaf_values_count value_in_row false)
              value_in_row data' 0 in
          (count0, mkGroupByResult tn data'' tr (Some count0))).
  rewrite Ha. reflexivity.
Qed.

Lemma leaf_values_count_refresh_again_witness :
  leaf_values_count true true (snd (leaf_values_count true false Examples.nested)) =
  leaf_values_count true false Examples.nested.
Proof.
  apply (leaf_values_count_refresh_again true false Examples.nested).
  right. reflexivity.
Defined.

(** [refresh] is not handed down: when every entry is a nested result
    with a cached count, a call with [refresh] returns the sum of the
    cached counts, whatever the nested results hold now. *)
Theorem leaf_values_count_refresh_not_nested
        (value_in_row : bool) (g : GroupByResult) (cs : list Z) :
  cached_counts (_data g) = Some cs ->
  fst (leaf_values_count value_in_row true g) = sum cs.
Proof.
  intros Hcs. rewrite leaf_values_count_computes by (left; reflexivity).
  assert (Hg : all_groups (_data g) = true /\
               counts_of_nested (leaf_values_count value_in_row false) (_data g) =
               sum cs).
  { revert cs Hcs. generalize (_data g) as entries.
    induction entries as [|[k v] entries IH]; intros cs Hcs.
    - injection Hcs as <-. split; reflexivity.
    - simpl in Hcs. destruct v as [z|f|s| |sub]; try discriminate.
      destruct (_meta sub) as [c|] eqn:Hc; [|discriminate].
      destruct (cached_counts entries) as [cs'|]; [|discriminate].
      injection Hcs as <-. destruct (IH cs' eq_refl) as [Hall Hsum].
      split; [exact Hall|].
      unfold counts_of_nested in *. simpl.
      rewrite (leaf_values_count_cached value_in_row sub c Hc), Hsum. reflexivity. }
  destruct Hg as [Hall Hsum].
  rewrite (count_leaves_groups _ _ _ _ Hall), Hsum. lia.
Qed.

Lemma leaf_values_count_refresh_not_nested_witness :
  let stale := mkGroupByResult None
                 [("A", VInt 1); ("B", VInt 2); ("C", VInt 3)] (VInt 3) (Some 2) in
  fst (leaf_values_count false true
         (mkGroupByResult None [("X", VGroup stale)] (VInt 3) (Some 2))) = sum [2].
Proof.
  apply (leaf_values_count_refresh_not_nested false
           (mkGroupByResult None
              [("X", VGroup (mkGroupByResult None
                               [("A", VInt 1); ("B", VInt 2); ("C", VInt 3)]
                               (VInt 3) (Some 2)))] (VInt 3) (Some 2)) [2]).
  reflexivity.
Defined.

(** * Properties of [SQLExecution] *)


Lemma rows_all_pending (fuel : nat) (self : SQL.SQLExecution) :
  SQL.rows_finished self = false ->
  (List.length (SQL.pending (SQL.cursor self)) < fuel)%nat ->
  SQL.rows_all fuel self =
  Some (map (yielded self) (SQL.pending (SQL.cursor self)), drained self).
Proof.
  destruct self as [[desc rows rc] names wfn fin]. simpl. intros ->.
  revert rows. induction fuel as [|fuel IH]; intros rows Hlen; [lia|].
  destruct rows as [|r rows].
  - reflexivity.
  - simpl in Hlen.
    change (SQL.rows_all (S fuel)
              (SQL.mkSQLExecution (SQL.mkCursor desc (r :: rows) rc) names wfn false))
      with (match SQL.rows_all fuel
                    (SQL.mkSQLExecution (SQL.mkCursor desc rows rc) names wfn false)
            with
            | Some (rs, self'') =>
                Some (yielded (SQL.mkSQLExecution (SQL.mkCursor desc rows rc)
                                 names wfn false) r :: rs, self'')
            | None => None
            end).
    rewrite (IH rows ltac:(lia)). reflexivity.
Qed.

(** Iterating [rows] of a new object yields one item per row the cursor
    holds after [execute], in the cursor's order, each a dictionary on the
    names of [description] (or the raw row); afterwards the cursor is
    empty and [rows] only raises StopIteration. *)
Theorem rows_yield_every_row
        (execute : string -> option (list value) -> SQL.Cursor)
        (sql : string) (params : option (list value)) (with_field_name : bool)
        (self : SQL.SQLExecution) (fuel : nat) :
  SQL.__init__ execute sql params with_field_name = SQL.Returned self ->
  (List.length (SQL.pending (execute sql params)) < fuel)%nat ->
  SQL.rows_all fuel self =
    Some (map (yielded self) (SQL.pending (execute sql params)), drained self) /\
  SQL.rows_next (drained self) = (SQL.Raised SQL.StopIteration, drained self) /\
  SQL.rowcount (drained self) = SQL.cursor_rowcount (execute sql params).
Proof.
  unfold SQL.__init__.
  destruct (SQL.description (execute sql params)) as [fields|] eqn:Hd;
    [|discriminate].
  intros H Hlen. injection H as <-. split; [|split; reflexivity].
  apply (rows_all_pending fuel); [reflexivity|exact Hlen].
Qed.

Lemma rows_yield_every_row_witness :
  let c := SQL.mkCursor (Some [("id", []); ("name", [])])
             [[VInt 1; VStr "a"]; [VInt 2; VStr "b"]] 2 in
  let self := SQL.mkSQLExecution c ["id"; "name"] true false in
  SQL.rows_all 3 self =
  Some ([SQL.DictRow [("id", VInt 1); ("name", VStr "a")];
         SQL.DictRow [("id", VInt 2); ("name", VStr "b")]], drained self).
Proof.
  apply (proj1 (rows_yield_every_row
                  (fun _ _ => SQL.mkCursor (Some [("id", []); ("name", [])])
                                [[VInt 1; VStr "a"]; [VInt 2; VStr "b"]] 2)
                  "SELECT id, name FROM t" None true _ 3 eq_refl
                  ltac:(simpl; lia))).
Defined.

Lemma lookup_combine (names : list string) (r : list value)
      (i : nat) (n : string) (v : value) :
  NoDup names ->
  nth_error names i = Some n ->
  nth_error r i = Some v ->
  Dict.lookup n (combine names r) = Some v.
Proof.
  intros Hnd. revert r i. induction Hnd as [|n' names Hnotin Hnd IH];
    intros r i Hn Hv.
  - destruct i; discriminate.
  - destruct r as [|v' r]; [destruct i; discriminate|].
    destruct i as [|i]; simpl in Hn, Hv.
    + injection Hn as ->. injection Hv as ->. simpl.
      rewrite String.eqb_refl. reflexivity.
    + simpl. destruct (String.eqb n' n) eqn:E.
      * apply String.eqb_eq in E. subst n'. exfalso. apply Hnotin.
        exact (nth_error_In _ _ Hn).
      * exact (IH r i Hn Hv).
Qed.

Lemma keys_combine_NoDup (names : list string) (r : list value) :
  NoDup names -> NoDup (Dict.keys (combine names r)).
Proof.
  intros Hnd. revert r. induction Hnd as [|n names Hnotin Hnd IH]; intros r.
  - constructor.
  - destruct r as [|v r]; [constructor|]. simpl. constructor; [|apply IH].
    intros Hin. apply Hnotin. unfold Dict.keys in Hin.
    apply in_map_iff in Hin. destruct Hin as ([n' v'] & <- & Hin).
    exact (in_combine_l _ _ _ _ Hin).
Qed.

Lemma length_of_items_NoDup (l : items) :
  NoDup (Dict.keys l) -> List.length (Dict.of_items l) = List.length l.
Proof.
  intros Hnd. rewrite (DictFacts.of_items_copy _ _ Hnd). reflexivity.
Qed.

(** With distinct field names, the dictionary of a row has under the
    i-th name the i-th column, and as many items as the shorter of names
    and row; with repeated names the last column of a name is kept. *)
Theorem row_dict_columns (names : list string) (r : list value) :
  (forall n : string,
      Dict.lookup n (SQL.row_dict names r) = Dict.lookup n (rev (combine names r))) /\
  (NoDup names ->
   Dict.len (SQL.row_dict names r) =
     Z.of_nat (Nat.min (List.length names) (List.length r)) /\
   forall (i : nat) (n : string) (v : value),
     nth_error names i = Some n ->
     nth_error r i = Some v ->
     Dict.lookup n (SQL.row_dict names r) = Some v).
Proof.
  unfold SQL.row_dict. split.
  - intros n. apply DictMore.lookup_of_items.
  - intros Hnd. split.
    + unfold Dict.len.
      rewrite (length_of_items_NoDup _ (keys_combine_NoDup names r Hnd)).
      rewrite length_combine. reflexivity.
    + intros i n v Hn Hv. rewrite DictMore.lookup_of_items.
      apply lookup_rev_NoDup; [exact (keys_combine_NoDup names r Hnd)|].
      apply lookup_In. exact (lookup_combine names r i n v Hnd Hn Hv).
Qed.

Lemma row_dict_columns_witness :
  Dict.lookup "name" (SQL.row_dict ["id"; "name"] [VInt 1; VStr "a"]) = Some (VStr "a") /\
  Dict.lookup "id" (SQL.row_dict ["id"; "id"] [VInt 1; VInt 2]) = Some (VInt 2).
Proof.
  split.
  - apply (proj2 (proj2 (row_dict_columns ["id"; "name"] [VInt 1; VStr "a"])
                    ltac:(repeat constructor; simpl; intuition discriminate))
             1%nat "name" (VStr "a")); reflexivity.
  - rewrite (proj1 (row_dict_columns ["id"; "id"] [VInt 1; VInt 2]) "id").
    reflexivity.
Defined.

(** [scalar] fetches one row, which is off the cursor afterwards whatever
    the outcome.  With no row left it raises StopIteration and the
    generator is finished.  On raw rows it raises AttributeError.  On a
    result of one named column it returns the first column of the row; on
    a row without columns, or with no field names, it returns [None]. *)
Theorem scalar_behaviour (self : SQL.SQLExecution) :
  SQL.rows_finished self = false ->
  (SQL.pending (SQL.cursor self) = [] ->
   SQL.scalar self = (SQL.Raised SQL.StopIteration, drained self)) /\
  (forall (r : list value) (rest : list (list value)),
      SQL.pending (SQL.cursor self) = r :: rest ->
      snd (SQL.scalar self) =
        SQL.mkSQLExecution
          (SQL.mkCursor (SQL.description (SQL.cursor self)) rest
             (SQL.cursor_rowcount (SQL.cursor self)))
          (SQL.field_names self) (SQL.rows_with_field_name self) false /\
      (SQL.rows_with_field_name self = false ->
       fst (SQL.scalar self) = SQL.Raised SQL.AttributeError) /\
      (SQL.rows_with_field_name self = true ->
       (forall (n : string) (v : value) (more : list value),
           SQL.field_names self = [n] -> r = v :: more ->
           fst (SQL.scalar self) = SQL.Returned v) /\
       (r = [] \/ SQL.field_names self = [] ->
        fst (SQL.scalar self) = SQL.Returned VNone))).
Proof.
  destruct self as [[desc rows rc] names wfn fin]. simpl. intros ->. split.
  - intros ->. reflexivity.
  - intros r rest ->. unfold SQL.scalar, SQL.rows_next, SQL.fetchone. simpl.
    destruct wfn.
    + split; [|split; [discriminate|]].
      * destruct (SQL.row_dict names r) as [|[k v] d]; reflexivity.
      * intros _. split.
        -- intros n v more -> ->. reflexivity.
        -- intros [-> | ->]; [|reflexivity].
           unfold SQL.row_dict. destruct names; reflexivity.
    + split; [reflexivity|]. split; [reflexivity|discriminate].
Qed.

Lemma scalar_behaviour_witness :
  let raw := SQL.mkSQLExecution (SQL.mkCursor (Some [("n", [])]) [[VInt 7]; [VInt 8]] 2)
               ["n"] false false in
  let named := SQL.mkSQLExecution (SQL.mkCursor (Some [("n", [])]) [[VInt 7]; [VInt 8]] 2)
                 ["n"] true false in
  fst (SQL.scalar raw) = SQL.Raised SQL.AttributeError /\
  snd (SQL.scalar raw) =
    SQL.mkSQLExecution (SQL.mkCursor (Some [("n", [])]) [[VInt 8]] 2) ["n"] false false /\
  fst (SQL.scalar named) = SQL.Returned (VInt 7).
Proof.
  destruct (proj2 (scalar_behaviour
                     (SQL.mkSQLExecution
                        (SQL.mkCursor (Some [("n", [])]) [[VInt 7]; [VInt 8]] 2)
                        ["n"] false false) eq_refl)
              [VInt 7] [[VInt 8]] eq_refl) as (H1 & H2 & _).
  destruct (proj2 (scalar_behaviour
                     (SQL.mkSQLExecution
                        (SQL.mkCursor (Some [("n", [])]) [[VInt 7]; [VInt 8]] 2)
                        ["n"] true false) eq_refl)
              [VInt 7] [[VInt 8]] eq_refl) as (_ & _ & H3).
  split; [exact (H2 eq_refl)|]. split; [exact H1|].
  exact (proj1 (H3 eq_refl) "n" (VInt 7) [] eq_refl eq_refl).
Defined.
